(** * goa: the response DSL and the publicizer code generator

    A shallow embedding of two files of the goa code base:

    - [rest/design/dsl/response.go]: the DSL functions [Response] and
      [Status] and their helper [executeResponseDSL], which build HTTP
      response expressions and attach them to the action or resource that
      is being evaluated;
    - the publicizer of the [codegen] package: [Publicizer] and
      [RecursivePublicizer], which walk a data type and render, through
      five text templates, the Go statements that copy a private struct
      into its public counterpart.

    Go pointers are locations of a store kept in the evaluation state, one
    finite map per struct type; the functions of the DSL are computations
    of a state monad over that store.  The code generator is pure and is
    written as a structural fixpoint over the data types.  What the two
    files call and do not define (the data types and their classifier, the
    evaluation context, the registries) is modelled from the specification
    and marked as such, or taken as a parameter. *)

From stdpp Require Import gmap strings list.
From Stdlib Require Import DecimalString ZArith.

(** ** Text helpers *)

(** The two control characters the templates contain. *)
Definition nl : string := String (Ascii.ascii_of_nat 10) EmptyString.
Definition tab : string := String (Ascii.ascii_of_nat 9) EmptyString.

(** [%d] of [fmt.Sprintf] on a non-negative [int]. *)
Definition itoa (n : nat) : string := NilEmpty.string_of_uint (Nat.to_uint n).

(** [strings.Join]. *)
Definition Join (elems : list string) (sep : string) : string :=
  String.concat sep elems.

(** ** Package design: data types and attributes *)

Module design.

(** Modelled from the spec: the package [design] is not among the files at
    hand; its data types are the schema nodes of section 3.  First the
    kinds of the primitive types. *)
Inductive Kind :=
| BooleanKind | Int32Kind | Int64Kind | Float64Kind | StringKind
| BytesKind | AnyKind.

(** Modelled from the spec: the schema node of section 3.  A [DataType] is
    one of the built-in primitives, an array, a map, an object (its fields
    in the order they are walked), a user type or a media type; the two last
    are the named types, they wrap an attribute and carry a name, and a
    media type an identifier.  [AttributeExpr.Type] may be nil, hence the
    option; [Required] lists the names of the required fields. *)
Inductive DataType :=
| Primitive (k : Kind)
| Array (ElemType : AttributeExpr)
| Map (KeyType ElemType : AttributeExpr)
| Object (fields : list (string * AttributeExpr))
| UserTypeExpr (TypeName : string) (Attribute : AttributeExpr)
| MediaTypeExpr (TypeName Identifier : string) (Attribute : AttributeExpr)
with AttributeExpr :=
| mkAttributeExpr (Type_ : option DataType) (Required : list string).

Definition Type_ (a : AttributeExpr) : option DataType :=
  match a with mkAttributeExpr t _ => t end.

Definition Required (a : AttributeExpr) : list string :=
  match a with mkAttributeExpr _ r => r end.

(** Modelled from the spec: the resolution of a named type to its
    underlying structural shape (section 4.3), done iteratively through
    every level of user or media type.  A named type whose attribute has
    no type resolves to itself. *)
Fixpoint underlying (dt : DataType) : DataType :=
  match dt with
  | UserTypeExpr _ a =>
      match Type_ a with Some t => underlying t | None => dt end
  | MediaTypeExpr _ _ a =>
      match Type_ a with Some t => underlying t | None => dt end
  | _ => dt
  end.

(** Modelled from the spec: the classifier of section 4.3, pure and total;
    its predicates and accessors resolve named types before they look at
    the shape and answer false or none on a nil type.  [IsPrimitive] is the
    first of them. *)
Definition IsPrimitive (dt : option DataType) : bool :=
  match dt with
  | Some t => match underlying t with Primitive _ => true | _ => false end
  | None => false
  end.

(** Modelled from the spec: [AsObject], the fields of the resolved object,
    none when the type is not an object. *)
Definition AsObject (dt : option DataType)
  : option (list (string * AttributeExpr)) :=
  match dt with
  | Some t => match underlying t with Object o => Some o | _ => None end
  | None => None
  end.

(** Modelled from the spec: [AsArray], the element of the resolved array,
    none when the type is not an array. *)
Definition AsArray (dt : option DataType) : option AttributeExpr :=
  match dt with
  | Some t => match underlying t with Array e => Some e | _ => None end
  | None => None
  end.

(** Modelled from the spec: [AsMap], the key and the element of the
    resolved map, none when the type is not a map. *)
Definition AsMap (dt : option DataType)
  : option (AttributeExpr * AttributeExpr) :=
  match dt with
  | Some t => match underlying t with Map k e => Some (k, e) | _ => None end
  | None => None
  end.

(** Modelled from the spec: [IsObject], [IsArray] and [IsMap] hold when the
    accessor returns something. *)
Definition IsObject (dt : option DataType) : bool :=
  match AsObject dt with Some _ => true | None => false end.

Definition IsArray (dt : option DataType) : bool :=
  match AsArray dt with Some _ => true | None => false end.

Definition IsMap (dt : option DataType) : bool :=
  match AsMap dt with Some _ => true | None => false end.

(** Modelled from the spec: a field of an object is required when the
    owning attribute lists its name, optional otherwise (section 3,
    optionality is tracked per field). *)
Definition IsRequired (a : AttributeExpr) (n : string) : bool :=
  bool_decide (n ∈ Required a).

End design.

(** ** Package codegen: the publicizer *)

Module codegen.
Import design.

(** The functions of the code base that the publicizer and its templates
    call and that live outside the two files: the template function map
    ([tabs], [goify], [gotyperef], [gotypedef], [add]) and two methods of
    [AttributeExpr].  They are parameters of the development. *)
Class Helpers := {
  Tabs : nat -> string;
  Goify : string -> bool -> string;
  GoTypeRef : option DataType -> list string -> nat -> bool -> string;
  GoTypeDef : AttributeExpr -> nat -> bool -> bool -> string;
  Add : nat -> nat -> nat;
  AllRequired : AttributeExpr -> list string;
  IsPrimitivePointer : AttributeExpr -> string -> bool
}.

(** The [data] map handed to the templates.  [elemType] and [keyType] are
    only set for the array and hash templates. *)
Record TemplateData := {
  sourceField : string;
  targetField : string;
  depth : nat;
  att : AttributeExpr;
  dereference : bool;
  init : bool;
  elemType : option AttributeExpr;
  keyType : option AttributeExpr
}.

(** The type of [Publicizer], under which the templates call it back. *)
Definition publicizer_t : Type :=
  AttributeExpr -> string -> string -> bool -> nat -> bool -> string.

Section Templates.
Context `{H : Helpers}.

(** [{{ if .init }}:{{ end }}] *)
Definition colon (d : TemplateData) : string := if init d then ":" else "".

(** [simplePublicizeTmpl] *)
Definition simplePublicizeTmpl (d : TemplateData) : string :=
  Tabs (depth d) +:+ targetField d +:+ " " +:+ colon d +:+ "= "
  +:+ (if dereference d then "*" else "") +:+ sourceField d.

(** [recursivePublicizeTmpl] *)
Definition recursivePublicizeTmpl (d : TemplateData) : string :=
  Tabs (depth d) +:+ targetField d +:+ " " +:+ colon d +:+ "= "
  +:+ sourceField d +:+ ".Publicize()".

(** [objectPublicizeTmpl]; [recursivePublicizer] is the entry of the function
    map. *)
Definition objectPublicizeTmpl
    (recursivePublicizer : AttributeExpr -> string -> string -> nat -> string)
    (d : TemplateData) : string :=
  Tabs (depth d) +:+ targetField d +:+ " = &"
  +:+ GoTypeDef (att d) (depth d) true false +:+ "{}" +:+ nl
  +:+ recursivePublicizer (att d) (sourceField d) (targetField d) (depth d).

(** The first line shared by [arrayPublicizeTmpl] and [hashPublicizeTmpl]:
    the allocation, sized by the length of the source. *)
Definition makeLine (d : TemplateData) : string :=
  Tabs (depth d) +:+ targetField d +:+ " " +:+ colon d +:+ "= make("
  +:+ GoTypeRef (Type_ (att d)) (AllRequired (att d)) (depth d) false
  +:+ ", len(" +:+ sourceField d +:+ "))".

(** [arrayPublicizeTmpl]; [$i] and [$elem] are [i<depth>] and
    [elem<depth>]. *)
Definition arrayPublicizeTmpl (publicizer : publicizer_t) (d : TemplateData)
  : string :=
  let i := "i" +:+ itoa (depth d) in
  let elem := "elem" +:+ itoa (depth d) in
  makeLine d +:+ nl
  +:+ Tabs (depth d) +:+ "for " +:+ i +:+ ", " +:+ elem +:+ " := range "
  +:+ sourceField d +:+ " {" +:+ nl
  +:+ Tabs (depth d)
  +:+ match elemType d with
      | Some e =>
          publicizer e elem (targetField d +:+ "[" +:+ i +:+ "]")
            (dereference d) (Add (depth d) 1) false
      | None => ""
      end +:+ nl
  +:+ Tabs (depth d) +:+ "}".

(** [hashPublicizeTmpl]; [$k], [$v] are [k<depth>], [v<depth>] and [$pubk],
    [$pubv] prefix them with [pub]. *)
Definition hashPublicizeTmpl (publicizer : publicizer_t) (d : TemplateData)
  : string :=
  let k := "k" +:+ itoa (depth d) in
  let v := "v" +:+ itoa (depth d) in
  let pubk := "pub" +:+ k in
  let pubv := "pub" +:+ v in
  makeLine d +:+ nl
  +:+ Tabs (depth d) +:+ "for " +:+ k +:+ ", " +:+ v +:+ " := range "
  +:+ sourceField d +:+ " {" +:+ nl
  +:+ Tabs (depth d)
  +:+ match keyType d with
      | Some kt => publicizer kt k pubk (dereference d) (Add (depth d) 1) true
      | None => ""
      end +:+ nl
  +:+ Tabs (depth d)
  +:+ match elemType d with
      | Some e => publicizer e v pubv (dereference d) (Add (depth d) 1) true
      | None => ""
      end +:+ nl
  +:+ Tabs (depth d) +:+ tab +:+ targetField d +:+ "[" +:+ pubk +:+ "]"
  +:+ " = " +:+ pubv +:+ nl
  +:+ Tabs (depth d) +:+ "}".

(** The text [RecursivePublicizer] wraps around the publication of the field
    [n]: [fmt.Sprintf("%sif %s.%s != nil {\n%s\n%s}", ...)]. *)
Definition guarded (depth : nat) (source n publication : string) : string :=
  Tabs depth +:+ "if " +:+ source +:+ "." +:+ Goify n true +:+ " != nil {"
  +:+ nl +:+ publication +:+ nl +:+ Tabs depth +:+ "}".

(** The walker [RecursivePublicizer] hands to [WalkAttributes]: the
    publication of the field [n] of type [catt]; [att] is the attribute that
    owns the fields. *)
Definition publishField (publicizer : publicizer_t) (att : AttributeExpr)
    (source target : string) (depth : nat) (n : string)
    (catt : AttributeExpr) : string :=
  let publication :=
    publicizer catt
      (source +:+ "." +:+ Goify n true)
      (target +:+ "." +:+ Goify n true)
      (IsPrimitive (Type_ catt) && negb (IsPrimitivePointer att n))
      (depth + 1)
      false in
  guarded depth source n publication.

(** Whether a publication opens with the test that the field [n] of
    [source] is not nil. *)
Definition hasGuard (depth : nat) (source n publication : string) : bool :=
  String.prefix
    (Tabs depth +:+ "if " +:+ source +:+ "." +:+ Goify n true +:+ " != nil {"
     +:+ nl)
    publication.

(** [RecursivePublicizer], open in the publicizer it calls on the fields.
    The object is [design.AsObject(att.Type)], its fields are walked in
    their order, and a user or media type hands over its own attribute. *)
Definition RecursivePublicizerWith (publicizer : publicizer_t)
    (att : AttributeExpr) (source target : string) (depth : nat) : string :=
  let publications :=
    match Type_ att with
    | Some t =>
        match underlying t with
        | Object o =>
            let att :=
              match t with
              | UserTypeExpr _ a | MediaTypeExpr _ _ a => a
              | _ => att
              end in
            map (fun '(n, catt) =>
                   publishField publicizer att source target depth n catt) o
        | _ => []
        end
    | None => []
    end in
  Join publications nl.

(** The [data] map [Publicizer] builds, and the two entries it adds for the
    array and hash templates. *)
Definition publicizerData (att : AttributeExpr) (sourceField targetField : string)
    (dereference : bool) (depth : nat) (init : bool) : TemplateData := {|
  sourceField := sourceField; targetField := targetField; depth := depth;
  att := att; dereference := dereference; init := init;
  elemType := None; keyType := None |}.

Definition set_elemType (v : AttributeExpr) (d : TemplateData) : TemplateData := {|
  sourceField := sourceField d; targetField := targetField d;
  depth := depth d; att := att d; dereference := dereference d;
  init := init d; elemType := Some v; keyType := keyType d |}.

Definition set_keyType (v : AttributeExpr) (d : TemplateData) : TemplateData := {|
  sourceField := sourceField d; targetField := targetField d;
  depth := depth d; att := att d; dereference := dereference d;
  init := init d; elemType := elemType d; keyType := Some v |}.

(** [Publicizer] publicizes a single attribute based on the type.  The
    [switch] is the chain of tests below; [ar] and [m] are read off the
    resolved type, which is what [design.AsArray] and [design.AsMap]
    return. *)
Fixpoint Publicizer (att : AttributeExpr) (sourceField targetField : string)
    (dereference : bool) (depth : nat) (init : bool) {struct att} : string :=
  let data :=
    publicizerData att sourceField targetField dereference depth init in
  if IsPrimitive (Type_ att) then simplePublicizeTmpl data
  else if IsObject (Type_ att) then
    match Type_ att with
    | Some (MediaTypeExpr _ _ _) => recursivePublicizeTmpl data
    | Some (UserTypeExpr _ _) => recursivePublicizeTmpl data
    | _ => objectPublicizeTmpl (RecursivePublicizerWith Publicizer) data
    end
  else if IsArray (Type_ att) then
    match Type_ att with
    | Some t =>
        match underlying t with
        | Array ElemType =>
            if IsObject (Type_ ElemType) then
              arrayPublicizeTmpl Publicizer (set_elemType ElemType data)
            else simplePublicizeTmpl data
        | _ => ""
        end
    | None => ""
    end
  else if IsMap (Type_ att) then
    match Type_ att with
    | Some t =>
        match underlying t with
        | Map KeyType ElemType =>
            if IsObject (Type_ KeyType) || IsObject (Type_ ElemType) then
              hashPublicizeTmpl Publicizer
                (set_elemType ElemType (set_keyType KeyType data))
            else simplePublicizeTmpl data
        | _ => ""
        end
    | None => ""
    end
  else "".

(** [RecursivePublicizer] produces code that copies fields from the private
    struct to the public struct. *)
Definition RecursivePublicizer : AttributeExpr -> string -> string -> nat -> string :=
  RecursivePublicizerWith Publicizer.

End Templates.
End codegen.

(** ** Package rest/design: responses, actions and resources *)

(** Locations of the store: the values of Go pointers. *)
Definition loc : Type := nat.

(** An [eval.Expression]: a pointer together with its dynamic type, which is
    what a type switch looks at.  [OtherExpr] stands for the expressions of
    the other DSLs (the API, a media type, an attribute and so on). *)
Inductive Expression :=
| ActionRef (l : loc)
| ResourceRef (l : loc)
| ResponseRef (l : loc)
| OtherExpr (l : loc).

Module HTTPResponseExpr.

(** Modelled from the spec: the struct is declared in the package
    [rest/design], which is not among the files at hand; its fields are
    those section 3 lists for a response expression.  The DSL reads and
    writes [Name], [Status], [MediaType], [Type], [Standard] and
    [Parent]. *)
Record t := mk {
  Name : string;
  Description : string;
  Status : Z;
  MediaType : string;
  Type_ : option design.DataType;
  Headers : option design.AttributeExpr;
  Standard : bool;
  Parent : option Expression
}.

(** [&design.HTTPResponseExpr{Name: name}]: every other field is zero. *)
Definition named (name : string) : t :=
  mk name "" 0%Z "" None None false None.

Definition set_Status (v : Z) (r : t) : t :=
  mk (Name r) (Description r) v (MediaType r) (Type_ r) (Headers r)
     (Standard r) (Parent r).

Definition set_MediaType (v : string) (r : t) : t :=
  mk (Name r) (Description r) (Status r) v (Type_ r) (Headers r)
     (Standard r) (Parent r).

Definition set_Type (v : option design.DataType) (r : t) : t :=
  mk (Name r) (Description r) (Status r) (MediaType r) v (Headers r)
     (Standard r) (Parent r).

Definition set_Standard (v : bool) (r : t) : t :=
  mk (Name r) (Description r) (Status r) (MediaType r) (Type_ r) (Headers r)
     v (Parent r).

Definition set_Parent (v : option Expression) (r : t) : t :=
  mk (Name r) (Description r) (Status r) (MediaType r) (Type_ r) (Headers r)
     (Standard r) v.

End HTTPResponseExpr.

Module ResourceExpr.

(** Modelled from the spec: a resource, the owning scope of section 3 that
    carries the default media type, with its responses. *)
Record t := mk {
  Name : string;
  MediaType : string;
  Responses : list loc
}.

Definition set_Responses (v : list loc) (r : t) : t :=
  mk (Name r) (MediaType r) v.

End ResourceExpr.

Module ActionExpr.

(** Modelled from the spec: an action, the owning scope of section 3 for a
    single operation: the resource it belongs to and its responses. *)
Record t := mk {
  Name : string;
  Resource : loc;
  Responses : list loc
}.

Definition set_Responses (v : list loc) (a : t) : t :=
  mk (Name a) (Resource a) v.

End ActionExpr.

#[global] Instance HTTPResponseExpr_inhabited : Inhabited HTTPResponseExpr.t :=
  populate (HTTPResponseExpr.named "").
#[global] Instance ResourceExpr_inhabited : Inhabited ResourceExpr.t :=
  populate (ResourceExpr.mk "" "" []).
#[global] Instance ActionExpr_inhabited : Inhabited ActionExpr.t :=
  populate (ActionExpr.mk "" 0 []).

(** ** Package eval: the evaluation context *)

Module eval.

(** What an error message is built from when it prints an argument of
    [Response] with [%#v]. *)
Inductive ArgValue :=
| FuncValue
| DataTypeValue (dt : design.DataType)
| StringValue (s : string)
| OtherValue.

(** The errors the two DSL functions report, by format string:
    - [DefinedTwice name]: "response %s is defined twice";
    - [InvalidTemplateParameter p]: "invalid response template parameter
      %#v, must be a string";
    - [NoResponseTemplate name]: "no response template named %#v";
    - [IncompatibleDSL caller]: the error of [eval.IncompatibleDSL] raised
      in the DSL function [caller]. *)
Inductive Error :=
| DefinedTwice (name : string)
| InvalidTemplateParameter (p : ArgValue)
| NoResponseTemplate (name : string)
| IncompatibleDSLError (caller : string).

(** Modelled from the spec: the state the DSL runs in.  It gathers the
    evaluation context of the package [eval] (the stack of active targets
    of section 5 and the diagnostic collector of section 7), the store the
    pointers refer to, and the two registries of [design.Root] (section 6).
    A location that a map does not hold reads as the zero value of its
    struct. *)
Record State := mkState {
  Stack : list Expression;
  Errors : list Error;
  actions : gmap loc ActionExpr.t;
  resources : gmap loc ResourceExpr.t;
  responses : gmap loc HTTPResponseExpr.t;
  RootResponses : gmap string loc;
  RootDefaultResponses : gmap string loc
}.

Definition set_Stack (v : list Expression) (st : State) : State :=
  mkState v (Errors st) (actions st) (resources st) (responses st)
          (RootResponses st) (RootDefaultResponses st).

Definition set_Errors (v : list Error) (st : State) : State :=
  mkState (Stack st) v (actions st) (resources st) (responses st)
          (RootResponses st) (RootDefaultResponses st).

Definition set_actions (v : gmap loc ActionExpr.t) (st : State) : State :=
  mkState (Stack st) (Errors st) v (resources st) (responses st)
          (RootResponses st) (RootDefaultResponses st).

Definition set_responses (v : gmap loc HTTPResponseExpr.t) (st : State)
  : State :=
  mkState (Stack st) (Errors st) (actions st) (resources st) v
          (RootResponses st) (RootDefaultResponses st).

Definition set_resources (v : gmap loc ResourceExpr.t) (st : State) : State :=
  mkState (Stack st) (Errors st) (actions st) v (responses st)
          (RootResponses st) (RootDefaultResponses st).

(** Computations over the state. *)
Definition M (A : Type) : Type := State -> A * State.

#[global] Instance M_ret : MRet M := fun A x st => (x, st).
#[global] Instance M_bind : MBind M :=
  fun A B f m st => let '(x, st') := m st in f x st'.

(** A DSL block, [func()] in Go. *)
Definition DSLFunc : Type := M unit.

(** Reading and writing through a pointer. *)
Definition loadResponse (l : loc) : M HTTPResponseExpr.t :=
  fun st => (responses st !!! l, st).

Definition modifyResponse (l : loc)
    (f : HTTPResponseExpr.t -> HTTPResponseExpr.t) : M unit :=
  fun st => (tt, set_responses (<[l := f (responses st !!! l)]> (responses st)) st).

Definition loadAction (l : loc) : M ActionExpr.t :=
  fun st => (actions st !!! l, st).

Definition modifyAction (l : loc) (f : ActionExpr.t -> ActionExpr.t) : M unit :=
  fun st => (tt, set_actions (<[l := f (actions st !!! l)]> (actions st)) st).

Definition loadResource (l : loc) : M ResourceExpr.t :=
  fun st => (resources st !!! l, st).

Definition modifyResource (l : loc) (f : ResourceExpr.t -> ResourceExpr.t)
  : M unit :=
  fun st => (tt, set_resources (<[l := f (resources st !!! l)]> (resources st)) st).

(** Allocation of a response expression at a location the store does not
    hold yet. *)
Definition newResponse (v : HTTPResponseExpr.t) : M loc :=
  fun st =>
    let l := fresh (dom (responses st)) in
    (l, set_responses (<[l := v]> (responses st)) st).

(** Modelled from the spec: [eval.Current], the active mutation target, is
    the top of the stack of section 5, none when the stack is empty. *)
Definition Current : M (option Expression) :=
  fun st => (last (Stack st), st).

(** Modelled from the spec: [eval.ReportError] adds one error to the
    process-wide diagnostic collector and returns (sections 4.2 and 7). *)
Definition ReportError (e : Error) : M unit :=
  fun st => (tt, set_Errors (Errors st ++ [e]) st).

(** Modelled from the spec: [eval.IncompatibleDSL] reports the
    incompatible-context error of section 7 for the calling DSL function. *)
Definition IncompatibleDSL (caller : string) : M unit :=
  ReportError (IncompatibleDSLError caller).

(** Modelled from the spec: [eval.Execute] runs a block with [def] as the
    active mutation target: entering the block pushes [def], leaving pops it
    (section 5), and the block fails when it reported an error (sections 4.2
    and 7). *)
Definition Execute (fn : DSLFunc) (def : Expression) : M bool :=
  fun st =>
    let startCount := length (Errors st) in
    let '(_, st1) := fn (set_Stack (Stack st ++ [def]) st) in
    let st2 := set_Stack (removelast (Stack st1)) st1 in
    (bool_decide (length (Errors st2) <= startCount), st2).

End eval.

(** ** Package rest/design/dsl: the response DSL *)

Module dsl.
Import eval.

(** One value of the variadic [paramsAndDSL ...interface{}]: a [func()]
    (nil when it is a nil function value), a data type, a string, or
    anything else (an untyped nil, a number and so on). *)
Inductive Arg :=
| ArgFunc (fn : option DSLFunc)
| ArgDataType (dt : design.DataType)
| ArgString (s : string)
| ArgOther.

(** How [%#v] sees an argument. *)
Definition valueOf (a : Arg) : ArgValue :=
  match a with
  | ArgFunc _ => FuncValue
  | ArgDataType dt => DataTypeValue dt
  | ArgString s => StringValue s
  | ArgOther => OtherValue
  end.

(** Modelled from the spec: [lookup(scope, name)] of section 4.1, the
    first response of a collection that bears the name, compared as a
    string. *)
Definition findResponse (st : State) (name : string) (rs : list loc)
  : option loc :=
  find (fun r => String.eqb (HTTPResponseExpr.Name (responses st !!! r)) name) rs.

(** Modelled from the spec: the method [Response] of [ActionExpr], the
    lookup in the responses of the action. *)
Definition ActionExpr_Response (def : loc) (name : string) : M (option loc) :=
  fun st => (findResponse st name (ActionExpr.Responses (actions st !!! def)), st).

(** Modelled from the spec: the method [Response] of [ResourceExpr], the
    lookup in the responses of the resource. *)
Definition ResourceExpr_Response (def : loc) (name : string) : M (option loc) :=
  fun st =>
    (findResponse st name (ResourceExpr.Responses (resources st !!! def)), st).

(** Modelled from the spec: [design.Root.Response(name)], the read-only
    lookup of section 6 in the registry of user-defined responses. *)
Definition Root_Response (name : string) : M (option loc) :=
  fun st => (RootResponses st !! name, st).

(** Modelled from the spec: [design.Root.DefaultResponse(name)], the
    read-only lookup of section 6 in the registry of built-in default
    response templates. *)
Definition Root_DefaultResponse (name : string) : M (option loc) :=
  fun st => (RootDefaultResponses st !! name, st).

(** Modelled from the spec: [Dup], the structural copy of section 4.1: a
    new response expression with the fields of the original. *)
Definition Dup (ar : loc) : M loc :=
  v ← loadResponse ar; newResponse v.

(** Lines 125-128: a [func()] in last position is the DSL and is taken off
    the arguments. *)
Definition takeDSL (paramsAndDSL : list Arg) : option DSLFunc * list Arg :=
  match last paramsAndDSL with
  | Some (ArgFunc dsl) => (dsl, removelast paramsAndDSL)
  | _ => (None, paramsAndDSL)
  end.

(** Lines 129-134: a data type in first position is the body type and is
    taken off the arguments. *)
Definition takeDataType (paramsAndDSL : list Arg)
  : option design.DataType * list Arg :=
  match paramsAndDSL with
  | ArgDataType dt :: rest => (Some dt, rest)
  | _ => (None, paramsAndDSL)
  end.

(** Lines 135-142: the remaining arguments must all be strings; the loop
    stops at the first that is not and hands it back. *)
Fixpoint stringParams (paramsAndDSL : list Arg) : Arg + list string :=
  match paramsAndDSL with
  | [] => inr []
  | ArgString s :: rest =>
      match stringParams rest with
      | inl p => inl p
      | inr params => inr (s :: params)
      end
  | p :: _ => inl p
  end.

(** Lines 163-170: the body type, when there is one, sets the media type
    (for a media type), the type, and clears the standard flag. *)
Definition applyDataType (dt : option design.DataType) (resp : loc)
  : M (option loc) :=
  match dt with
  | Some dt =>
      match dt with
      | design.MediaTypeExpr _ Identifier _ =>
          modifyResponse resp (HTTPResponseExpr.set_MediaType Identifier)
      | _ => mret tt
      end;;
      modifyResponse resp (HTTPResponseExpr.set_Type (Some dt));;
      modifyResponse resp (HTTPResponseExpr.set_Standard false);;
      mret (Some resp)
  | None => mret (Some resp)
  end.

(** Lines 149-156: the expression the definition starts from. *)
Definition baseResponse (name : string) : M loc :=
  ar ← Root_Response name;
  match ar with
  | Some ar => Dup ar
  | None =>
      ar ← Root_DefaultResponse name;
      match ar with
      | Some ar =>
          resp ← Dup ar;
          modifyResponse resp (HTTPResponseExpr.set_Standard true);;
          mret resp
      | None => newResponse (HTTPResponseExpr.named name)
      end
  end.

(** [executeResponseDSL]: nil is [None]. *)
Definition executeResponseDSL (name : string) (paramsAndDSL : list Arg)
  : M (option loc) :=
  let dsl := (takeDSL paramsAndDSL).1 in
  let paramsAndDSL := (takeDSL paramsAndDSL).2 in
  let dt := (takeDataType paramsAndDSL).1 in
  let paramsAndDSL := (takeDataType paramsAndDSL).2 in
  match stringParams paramsAndDSL with
  | inl p =>
      ReportError (InvalidTemplateParameter (valueOf p));;
      (mret None : M (option loc))
  | inr params =>
      if bool_decide (0 < length params) then
        ReportError (NoResponseTemplate name);;
        (mret None : M (option loc))
      else
        resp ← baseResponse name;
        match dsl with
        | Some dsl =>
            ok ← Execute dsl (ResponseRef resp);
            if negb ok then (mret None : M (option loc))
            else
              modifyResponse resp (HTTPResponseExpr.set_Standard false);;
              applyDataType dt resp
        | None => applyDataType dt resp
        end
  end.

(** The test of lines 84 and 97: the status is 200 and the media type is
    unset. *)
Definition needsMediaType (r : HTTPResponseExpr.t) : bool :=
  bool_decide (HTTPResponseExpr.Status r = 200%Z)
  && String.eqb (HTTPResponseExpr.MediaType r) "".

(** [Response] implements the response definition DSL. *)
Definition Response (name : string) (paramsAndDSL : list Arg) : M unit :=
  cur ← Current;
  match cur with
  | Some (ActionRef def) =>
      found ← ActionExpr_Response def name;
      match found with
      | Some _ => ReportError (DefinedTwice name)
      | None =>
          resp ← executeResponseDSL name paramsAndDSL;
          match resp with
          | Some resp =>
              r ← loadResponse resp;
              (if needsMediaType r then
                 a ← loadAction def;
                 res ← loadResource (ActionExpr.Resource a);
                 modifyResponse resp
                   (HTTPResponseExpr.set_MediaType (ResourceExpr.MediaType res))
               else mret tt);;
              modifyResponse resp
                (HTTPResponseExpr.set_Parent (Some (ActionRef def)));;
              modifyAction def (fun a =>
                ActionExpr.set_Responses (ActionExpr.Responses a ++ [resp]) a)
          | None => mret tt
          end
      end
  | Some (ResourceRef def) =>
      found ← ResourceExpr_Response def name;
      match found with
      | Some _ => ReportError (DefinedTwice name)
      | None =>
          resp ← executeResponseDSL name paramsAndDSL;
          match resp with
          | Some resp =>
              r ← loadResponse resp;
              (if needsMediaType r then
                 res ← loadResource def;
                 modifyResponse resp
                   (HTTPResponseExpr.set_MediaType (ResourceExpr.MediaType res))
               else mret tt);;
              modifyResponse resp
                (HTTPResponseExpr.set_Parent (Some (ResourceRef def)));;
              modifyResource def (fun r =>
                ResourceExpr.set_Responses (ResourceExpr.Responses r ++ [resp]) r)
          | None => mret tt
          end
      end
  | _ => IncompatibleDSL "Response"
  end.

(** [Status] sets the Response status. *)
Definition Status (status : Z) : M unit :=
  cur ← Current;
  match cur with
  | Some (ResponseRef res) =>
      modifyResponse res (HTTPResponseExpr.set_Status status)
  | _ => IncompatibleDSL "Status"
  end.

End dsl.

(** ** The dispatch as the spec words it

    Section 4.4: the classification is checked in the fixed order primitive,
    object, array, map, and the first predicate that holds selects the
    branch. *)

Module spec.
Import design.

Inductive Branch := PrimitiveBranch | ObjectBranch | ArrayBranch | MapBranch.

(** The predicate of the classifier that guards a branch. *)
Definition holds (b : Branch) (dt : option DataType) : bool :=
  match b with
  | PrimitiveBranch => IsPrimitive dt
  | ObjectBranch => IsObject dt
  | ArrayBranch => IsArray dt
  | MapBranch => IsMap dt
  end.

(** The first branch, in the fixed order, whose predicate holds. *)
Definition dispatch (dt : option DataType) : option Branch :=
  find (fun b => holds b dt)
       [PrimitiveBranch; ObjectBranch; ArrayBranch; MapBranch].

(** Whether the type is itself a user type or a media type, the two types
    that have their own [Publicize] method. *)
Definition isNamed (dt : option DataType) : bool :=
  match dt with
  | Some (UserTypeExpr _ _) | Some (MediaTypeExpr _ _ _) => true
  | _ => false
  end.

End spec.

(** ** The response definition as the spec words it *)

Module dslspec.
Import eval dsl.

(** The positional arguments left once the trailing block and the body type
    are taken off: the template parameters of section 4.2. *)
Definition templateParams (paramsAndDSL : list Arg) : list Arg :=
  (takeDataType (takeDSL paramsAndDSL).2).2.

(** The error a definition with template parameters ends on: the first
    parameter that is not a string is invalid, and string parameters name a
    template that does not exist. *)
Definition templateError (name : string) (params : list Arg) : Error :=
  match stringParams params with
  | inl p => InvalidTemplateParameter (valueOf p)
  | inr _ => NoResponseTemplate name
  end.

(** The response collection of a scope, an action or a resource; no other
    expression is a scope. *)
Definition scopeResponses (st : State) (scope : Expression)
  : option (list loc) :=
  match scope with
  | ActionRef def => Some (ActionExpr.Responses (actions st !!! def))
  | ResourceRef def => Some (ResourceExpr.Responses (resources st !!! def))
  | _ => None
  end.

(** The default media type of a scope, [lookupScopeDefaultMediaType] of
    section 6: that of the resource, and for an action that of the resource
    it belongs to. *)
Definition defaultMediaType (st : State) (scope : Expression) : string :=
  match scope with
  | ActionRef def =>
      ResourceExpr.MediaType
        (resources st !!! ActionExpr.Resource (actions st !!! def))
  | ResourceRef def => ResourceExpr.MediaType (resources st !!! def)
  | _ => ""
  end.

(** Step 2 of the resolution algorithm of section 4.2: the base expression
    is the copy of the user-defined response of that name, else the copy of
    the default response template of that name marked standard, else an
    expression with only the name set. *)
Definition baseExpression (st : State) (name : string) : HTTPResponseExpr.t :=
  match RootResponses st !! name with
  | Some ar => responses st !!! ar
  | None =>
      match RootDefaultResponses st !! name with
      | Some ar => HTTPResponseExpr.set_Standard true (responses st !!! ar)
      | None => HTTPResponseExpr.named name
      end
  end.

End dslspec.

(** ** Sample inputs

    A concrete instance of the helpers and a few types and states, on which
    the statements below are evaluated. *)

Module samples.
Import design codegen eval dsl.

(** An instance of the helpers: tabs for the indentation, names kept as
    they are, a fixed text for the Go types. *)
Definition sampleHelpers : Helpers := {|
  Tabs := fun n => String.concat "" (replicate n tab);
  Goify := fun n _ => n;
  GoTypeRef := fun _ _ _ _ => "T";
  GoTypeDef := fun _ _ _ _ => "struct";
  Add := Nat.add;
  AllRequired := Required;
  IsPrimitivePointer := fun a n => negb (IsRequired a n)
|}.

Definition stringAtt : AttributeExpr :=
  mkAttributeExpr (Some (Primitive StringKind)) [].

(** A user type [Owner] with one field. *)
Definition ownerType : DataType :=
  UserTypeExpr "Owner"
    (mkAttributeExpr (Some (Object [("name", stringAtt)])) ["name"]).

Definition ownerAtt : AttributeExpr := mkAttributeExpr (Some ownerType) [].

(** An anonymous object with an optional primitive field [id] and a required
    field [owner] whose type is the user type. *)
Definition accountAtt : AttributeExpr :=
  mkAttributeExpr (Some (Object [("id", stringAtt); ("owner", ownerAtt)]))
                  ["owner"].

(** [[]string], [[][]string], [[]Owner] and two maps. *)
Definition stringsAtt : AttributeExpr :=
  mkAttributeExpr (Some (Array stringAtt)) [].

Definition matrixAtt : AttributeExpr :=
  mkAttributeExpr (Some (Array stringsAtt)) [].

Definition ownersAtt : AttributeExpr :=
  mkAttributeExpr (Some (Array ownerAtt)) [].

Definition indexAtt : AttributeExpr :=
  mkAttributeExpr (Some (Map stringAtt stringsAtt)) [].

(** The media type [BottleMedia]. *)
Definition BottleMedia : DataType :=
  MediaTypeExpr "BottleMedia" "application/vnd.bottle"
    (mkAttributeExpr (Some (Object [("name", stringAtt)])) ["name"]).

(** The default response template [OK] at location 0, the response
    [NotFound] at location 1, already attached to the action at location 0
    of the resource at location 0, whose media type is
    [application/vnd.account]. *)
Definition okTemplate : HTTPResponseExpr.t :=
  HTTPResponseExpr.mk "OK" "" 200 "" None None false None.

Definition notFound : HTTPResponseExpr.t :=
  HTTPResponseExpr.mk "NotFound" "" 404 "" None None true
                      (Some (ActionRef 0)).

Definition sampleState (stack : list Expression) : State := {|
  Stack := stack;
  Errors := [];
  actions := {[ 0 := ActionExpr.mk "show" 0 [1] ]};
  resources := {[ 0 := ResourceExpr.mk "account" "application/vnd.account" [] ]};
  responses := {[ 0 := okTemplate; 1 := notFound ]};
  RootResponses := ∅;
  RootDefaultResponses := {[ "OK" := 0 ]}
|}.

(** The state while the action, the resource and the response [NotFound]
    are being evaluated. *)
Definition inAction : State := sampleState [ResourceRef 0; ActionRef 0].
Definition inResource : State := sampleState [ResourceRef 0].
Definition inResponse : State :=
  sampleState [ResourceRef 0; ActionRef 0; ResponseRef 1].

End samples.

(** ** Argument lists and body types, in closed form *)

Module dslforms.
Import eval dsl.

(** The argument list made of an optional body type followed by an optional
    block; the block may be a nil function value. *)
Definition argsOf (dt : option design.DataType)
    (fn : option (option DSLFunc)) : list Arg :=
  option_list (ArgDataType <$> dt) ++ option_list (ArgFunc <$> fn).

(** The three writes of lines 163-169 on one expression: the identifier of a
    media type goes to [MediaType], the type to [Type], and [Standard] is
    cleared. *)
Definition withDataType (dt : design.DataType) (x : HTTPResponseExpr.t)
  : HTTPResponseExpr.t :=
  HTTPResponseExpr.set_Standard false
    (HTTPResponseExpr.set_Type (Some dt)
       (match dt with
        | design.MediaTypeExpr _ Identifier _ =>
            HTTPResponseExpr.set_MediaType Identifier x
        | _ => x
        end)).

(** Lines 84-88 and 97-100 on one expression: the default media type when
    the status is 200 and the media type is unset, then the parent. *)
Definition attached (scope : Expression) (mediaType : string)
    (x : HTTPResponseExpr.t) : HTTPResponseExpr.t :=
  HTTPResponseExpr.set_Parent (Some scope)
    (if needsMediaType x then HTTPResponseExpr.set_MediaType mediaType x
     else x).

(** Line 88 and line 101 on the state: the response [r] is appended to the
    responses of the scope. *)
Definition appendResponse (scope : Expression) (r : loc) (st : State)
  : State :=
  match scope with
  | ActionRef def =>
      set_actions
        (<[def := ActionExpr.set_Responses
                    (ActionExpr.Responses (actions st !!! def) ++ [r])
                    (actions st !!! def)]> (actions st)) st
  | ResourceRef def =>
      set_resources
        (<[def := ResourceExpr.set_Responses
                    (ResourceExpr.Responses (resources st !!! def) ++ [r])
                    (resources st !!! def)]> (resources st)) st
  | _ => st
  end.

End dslforms.

(** ** Types that hold no object *)

Module plain.
Import design.

(** Whether a type holds no object at any depth: a primitive, or an array or
    a map built from such types, possibly through user or media types.  A
    value of such a type has the same Go type in the private and in the
    public struct. *)
Fixpoint holdsNoObject (dt : DataType) {struct dt} : bool :=
  match dt with
  | Primitive _ => true
  | Array e => holdsNoObjectAtt e
  | Map k e => holdsNoObjectAtt k && holdsNoObjectAtt e
  | Object _ => false
  | UserTypeExpr _ a => holdsNoObjectAtt a
  | MediaTypeExpr _ _ a => holdsNoObjectAtt a
  end
with holdsNoObjectAtt (a : AttributeExpr) {struct a} : bool :=
  match a with
  | mkAttributeExpr (Some t) _ => holdsNoObject t
  | mkAttributeExpr None _ => false
  end.

End plain.

(** * Properties *)

(** ** Text *)

Lemma prefix_append (p s : string) : String.prefix p (p +:+ s) = true.
Proof.
  induction p as [|c p IH]; simpl.
  - by destruct s.
  - destruct (Ascii.ascii_dec c c) as [_|Hne]; [exact IH | by destruct Hne].
Qed.

Lemma prefix_append_head (a p s : string) :
  String.prefix p s = true -> String.prefix (a +:+ p) (a +:+ s) = true.
Proof.
  intros Hp. induction a as [|c a IH]; [exact Hp|].
  change (String.prefix (String c (a +:+ p)) (String c (a +:+ s)) = true).
  simpl. by destruct (Ascii.ascii_dec c c).
Qed.

Lemma length_append (s1 s2 : string) :
  String.length (s1 +:+ s2) = String.length s1 + String.length s2.
Proof. induction s1 as [|c s1 IH]; simpl; [reflexivity | by rewrite IH]. Qed.

Lemma append_assoc (s1 s2 s3 : string) :
  (s1 +:+ s2) +:+ s3 = s1 +:+ (s2 +:+ s3).
Proof.
  induction s1 as [|c s1 IH]; [reflexivity|].
  change (String c ((s1 +:+ s2) +:+ s3) = String c (s1 +:+ (s2 +:+ s3))).
  by rewrite IH.
Qed.

(** ** The classifier *)

Section Classifier.
Import design spec.

(** The shapes are disjoint: the predicates of two branches never hold of
    the same type. *)
Lemma holds_unique (dt : option DataType) (b b' : Branch) :
  holds b dt = true -> holds b' dt = true -> b = b'.
Proof.
  destruct dt as [t|]; [|by destruct b].
  destruct b, b'; try reflexivity; simpl;
    unfold IsPrimitive, IsObject, IsArray, IsMap, AsObject, AsArray, AsMap;
    destruct (underlying t); discriminate.
Qed.

Lemma dispatch_holds (dt : option DataType) (b : Branch) :
  dispatch dt = Some b <-> holds b dt = true.
Proof.
  split.
  - intros Hd. apply (find_some _ _ Hd).
  - intros Hb. unfold dispatch. simpl.
    destruct (IsPrimitive dt) eqn:H1;
      [f_equal; by apply (holds_unique dt PrimitiveBranch b)|].
    destruct (IsObject dt) eqn:H2;
      [f_equal; by apply (holds_unique dt ObjectBranch b)|].
    destruct (IsArray dt) eqn:H3;
      [f_equal; by apply (holds_unique dt ArrayBranch b)|].
    destruct (IsMap dt) eqn:H4;
      [f_equal; by apply (holds_unique dt MapBranch b)|].
    destruct b; simpl in Hb; congruence.
Qed.

Lemma dispatch_none (dt : option DataType) :
  dispatch dt = None <-> forall b, holds b dt = false.
Proof.
  split.
  - intros Hd b. destruct (holds b dt) eqn:Hb; [|done].
    apply dispatch_holds in Hb. congruence.
  - intros Hall. unfold dispatch. simpl.
    pose proof (Hall PrimitiveBranch) as H1. pose proof (Hall ObjectBranch) as H2.
    pose proof (Hall ArrayBranch) as H3. pose proof (Hall MapBranch) as H4.
    simpl in H1, H2, H3, H4. by rewrite H1, H2, H3, H4.
Qed.

Lemma AsArray_kind (dt : option DataType) (ar : AttributeExpr) :
  AsArray dt = Some ar ->
  IsPrimitive dt = false /\ IsObject dt = false /\ IsArray dt = true.
Proof.
  unfold IsPrimitive, IsObject, IsArray, AsObject, AsArray.
  destruct dt as [t|]; [|discriminate].
  by destruct (underlying t).
Qed.

Lemma AsMap_kind (dt : option DataType) (m : AttributeExpr * AttributeExpr) :
  AsMap dt = Some m ->
  IsPrimitive dt = false /\ IsObject dt = false /\ IsArray dt = false
  /\ IsMap dt = true.
Proof.
  unfold IsPrimitive, IsObject, IsArray, IsMap, AsObject, AsArray, AsMap.
  destruct dt as [t|]; [|discriminate].
  by destruct (underlying t).
Qed.

End Classifier.

(** ** The publicizer *)

Section Publicizer.
Import design codegen spec.
Context `{H : Helpers}.

(** One step of [Publicizer], with the array and the map read through the
    accessors as the Go code does. *)
Lemma Publicizer_eq (a : AttributeExpr) (s t : string) (deref : bool)
    (d : nat) (i : bool) :
  Publicizer a s t deref d i =
  if IsPrimitive (Type_ a) then simplePublicizeTmpl (publicizerData a s t deref d i)
  else if IsObject (Type_ a) then
    if isNamed (Type_ a) then recursivePublicizeTmpl (publicizerData a s t deref d i)
    else objectPublicizeTmpl RecursivePublicizer (publicizerData a s t deref d i)
  else if IsArray (Type_ a) then
    match AsArray (Type_ a) with
    | Some ar =>
        if IsObject (Type_ ar) then
          arrayPublicizeTmpl Publicizer
            (set_elemType ar (publicizerData a s t deref d i))
        else simplePublicizeTmpl (publicizerData a s t deref d i)
    | None => ""
    end
  else if IsMap (Type_ a) then
    match AsMap (Type_ a) with
    | Some (k, e) =>
        if IsObject (Type_ k) || IsObject (Type_ e) then
          hashPublicizeTmpl Publicizer
            (set_elemType e (set_keyType k (publicizerData a s t deref d i)))
        else simplePublicizeTmpl (publicizerData a s t deref d i)
    | None => ""
    end
  else "".
Proof.
  destruct a as [[ty|] r]; [|reflexivity].
  destruct ty; try reflexivity;
    cbn -[underlying simplePublicizeTmpl recursivePublicizeTmpl
          objectPublicizeTmpl arrayPublicizeTmpl hashPublicizeTmpl];
    unfold IsPrimitive, IsObject, IsArray, IsMap, AsObject, AsArray, AsMap;
    destruct (underlying _); reflexivity.
Qed.

(** C7. The dispatch of [Publicizer] takes the first branch, in the order
    primitive, object, array, map, whose predicate holds of the type of the
    attribute.  The predicates are disjoint, so exactly the branch whose
    predicate holds fires, and an attribute of which none holds yields the
    empty text. *)
Theorem Publicizer_dispatch (a : AttributeExpr) (s t : string) (deref : bool)
    (d : nat) (i : bool) :
  Publicizer a s t deref d i =
    match dispatch (Type_ a) with
    | Some PrimitiveBranch =>
        simplePublicizeTmpl (publicizerData a s t deref d i)
    | Some ObjectBranch =>
        if isNamed (Type_ a) then
          recursivePublicizeTmpl (publicizerData a s t deref d i)
        else objectPublicizeTmpl RecursivePublicizer (publicizerData a s t deref d i)
    | Some ArrayBranch =>
        match AsArray (Type_ a) with
        | Some ar =>
            if IsObject (Type_ ar) then
              arrayPublicizeTmpl Publicizer
                (set_elemType ar (publicizerData a s t deref d i))
            else simplePublicizeTmpl (publicizerData a s t deref d i)
        | None => ""
        end
    | Some MapBranch =>
        match AsMap (Type_ a) with
        | Some (k, e) =>
            if IsObject (Type_ k) || IsObject (Type_ e) then
              hashPublicizeTmpl Publicizer
                (set_elemType e (set_keyType k (publicizerData a s t deref d i)))
            else simplePublicizeTmpl (publicizerData a s t deref d i)
        | None => ""
        end
    | None => ""
    end
  /\ (forall b, dispatch (Type_ a) = Some b <-> holds b (Type_ a) = true)
  /\ (dispatch (Type_ a) = None <-> forall b, holds b (Type_ a) = false)
  /\ ((forall b, holds b (Type_ a) = false) -> Publicizer a s t deref d i = "").
Proof.
  split.
  { rewrite Publicizer_eq. unfold dispatch. simpl.
    destruct (IsPrimitive (Type_ a)); [reflexivity|].
    destruct (IsObject (Type_ a)); [reflexivity|].
    destruct (IsArray (Type_ a)); [reflexivity|].
    destruct (IsMap (Type_ a)); reflexivity. }
  split; [intros b; apply dispatch_holds|].
  split; [apply dispatch_none|].
  intros Hnone. rewrite Publicizer_eq.
  pose proof (Hnone PrimitiveBranch) as H1. pose proof (Hnone ObjectBranch) as H2.
  pose proof (Hnone ArrayBranch) as H3. pose proof (Hnone MapBranch) as H4.
  simpl in H1, H2, H3, H4. by rewrite H1, H2, H3, H4.
Qed.

(** The text of the simple template, which is all [Publicizer] renders for
    a primitive. *)
Lemma Publicizer_primitive (p : AttributeExpr) (s t : string) (deref : bool)
    (d : nat) (i : bool) :
  IsPrimitive (Type_ p) = true ->
  Publicizer p s t deref d i =
    Tabs d +:+ t +:+ " " +:+ (if i then ":" else "") +:+ "= "
    +:+ (if deref then "*" else "") +:+ s.
Proof. intros Hp. by rewrite Publicizer_eq, Hp. Qed.

(** C10. A map whose key type and value type are both not objects is
    published by one assignment of the whole map, the text of the primitive
    case: no allocation and no loop over the keys and values. *)
Theorem Publicizer_map_without_object (a k e : AttributeExpr) (s t : string)
    (deref : bool) (d : nat) (i : bool) :
  AsMap (Type_ a) = Some (k, e) ->
  IsObject (Type_ k) = false ->
  IsObject (Type_ e) = false ->
  Publicizer a s t deref d i =
    Tabs d +:+ t +:+ " " +:+ (if i then ":" else "") +:+ "= "
    +:+ (if deref then "*" else "") +:+ s
  /\ (forall p, IsPrimitive (Type_ p) = true ->
                Publicizer a s t deref d i = Publicizer p s t deref d i).
Proof.
  intros Hm Hk He.
  assert (Ha : Publicizer a s t deref d i =
               Tabs d +:+ t +:+ " " +:+ (if i then ":" else "") +:+ "= "
               +:+ (if deref then "*" else "") +:+ s).
  { rewrite Publicizer_eq.
    destruct (AsMap_kind _ _ Hm) as (-> & -> & -> & ->).
    by rewrite Hm, Hk, He. }
  split; [exact Ha|].
  intros p Hp. by rewrite Ha, (Publicizer_primitive p).
Qed.

(** A type that holds no object does not resolve to an object, and a type
    that resolves to a primitive holds no object. *)
Lemma holdsNoObject_not_object (t : DataType) :
  plain.holdsNoObject t = true -> IsObject (Some t) = false.
Proof.
  unfold IsObject, AsObject. revert t. fix IH 1.
  intros [k|e|k e|o|n [[ty|] r]|n id [[ty|] r]]; simpl; try done;
    intros Hp; apply (IH ty Hp).
Qed.

Lemma IsPrimitive_holdsNoObject (t : DataType) :
  IsPrimitive (Some t) = true -> plain.holdsNoObject t = true.
Proof.
  unfold IsPrimitive. revert t. fix IH 1.
  intros [k|e|k e|o|n [[ty|] r]|n id [[ty|] r]]; simpl; try done;
    intros Hp; apply (IH ty Hp).
Qed.

Lemma holdsNoObjectAtt_not_object (a : AttributeExpr) :
  plain.holdsNoObjectAtt a = true -> IsObject (Type_ a) = false.
Proof.
  destruct a as [[t|] r]; simpl; [apply holdsNoObject_not_object | done].
Qed.

(** C3, as the code has it.  An array of objects is published by an
    allocation of the length of the source followed by a loop that publishes
    each element.  An array of primitives is published by the assignment of
    the primitive case, and so is an array whose elements are arrays or maps
    that hold no object, such as an array of arrays of strings.  The text of
    the loop is never that of the assignment. *)
Theorem Publicizer_array (a ar : AttributeExpr) (s t : string) (deref : bool)
    (d : nat) (i : bool) :
  AsArray (Type_ a) = Some ar ->
  (IsObject (Type_ ar) = true ->
   Publicizer a s t deref d i =
     Tabs d +:+ t +:+ " " +:+ (if i then ":" else "") +:+ "= make("
     +:+ GoTypeRef (Type_ a) (AllRequired a) d false
     +:+ ", len(" +:+ s +:+ "))" +:+ nl
     +:+ Tabs d +:+ "for " +:+ ("i" +:+ itoa d) +:+ ", "
     +:+ ("elem" +:+ itoa d) +:+ " := range " +:+ s +:+ " {" +:+ nl
     +:+ Tabs d
     +:+ Publicizer ar ("elem" +:+ itoa d)
           (t +:+ "[" +:+ ("i" +:+ itoa d) +:+ "]") deref (Add d 1) false
     +:+ nl
     +:+ Tabs d +:+ "}")
  /\ (IsPrimitive (Type_ ar) = true \/ plain.holdsNoObjectAtt ar = true ->
      Publicizer a s t deref d i =
        Tabs d +:+ t +:+ " " +:+ (if i then ":" else "") +:+ "= "
        +:+ (if deref then "*" else "") +:+ s)
  /\ (forall p, IsPrimitive (Type_ p) = true ->
        (IsPrimitive (Type_ ar) = true \/ plain.holdsNoObjectAtt ar = true ->
         Publicizer a s t deref d i = Publicizer p s t deref d i)
        /\ (IsObject (Type_ ar) = true ->
            Publicizer a s t deref d i <> Publicizer p s t deref d i)).
Proof.
  intros Har.
  assert (Ha : Publicizer a s t deref d i =
               if IsObject (Type_ ar) then
                 arrayPublicizeTmpl Publicizer
                   (set_elemType ar (publicizerData a s t deref d i))
               else simplePublicizeTmpl (publicizerData a s t deref d i)).
  { rewrite Publicizer_eq.
    destruct (AsArray_kind _ _ Har) as (-> & -> & ->). by rewrite Har. }
  assert (Hplain : IsPrimitive (Type_ ar) = true
                   \/ plain.holdsNoObjectAtt ar = true ->
                   IsObject (Type_ ar) = false).
  { intros [Hp|Hp]; [|by apply holdsNoObjectAtt_not_object].
    apply holdsNoObjectAtt_not_object.
    destruct ar as [[ty|] r]; [|done]. by apply IsPrimitive_holdsNoObject. }
  split; [|split].
  - intros Hobj. rewrite Ha, Hobj.
    unfold arrayPublicizeTmpl, makeLine, colon. simpl.
    by rewrite !append_assoc.
  - intros Hp. by rewrite Ha, (Hplain Hp).
  - intros p Hprim. rewrite (Publicizer_primitive p) by done. split.
    + intros Hp. by rewrite Ha, (Hplain Hp).
    + intros Hobj Heq. rewrite Ha, Hobj in Heq.
      apply (f_equal String.length) in Heq.
      unfold arrayPublicizeTmpl, makeLine, colon in Heq. simpl in Heq.
      repeat rewrite length_append in Heq. simpl in Heq.
      destruct deref; simpl in Heq; lia.
Qed.

(** C2, as the code has it.  [RecursivePublicizer] wraps the publication of
    every field of an anonymous object in the test that the source field is
    not nil, whether the field is required or optional.  A field of
    primitive type is copied inside its test; a field whose type is a user
    or media type over an object is published inside its test by the call
    of its own [Publicize] method; and a field that is itself an anonymous
    object is, inside its test, allocated and published field by field,
    without that call. *)
Theorem RecursivePublicizer_guards (a : AttributeExpr)
    (o : list (string * AttributeExpr)) (s t : string) (deref : bool)
    (d : nat) (i : bool) :
  Type_ a = Some (Object o) ->
  Publicizer a s t deref d i =
    Tabs d +:+ t +:+ " = &" +:+ GoTypeDef a d true false +:+ "{}" +:+ nl
    +:+ RecursivePublicizer a s t d
  /\ RecursivePublicizer a s t d =
       Join (map (fun '(n, c) => publishField Publicizer a s t d n c) o) nl
  /\ (forall n c,
        hasGuard d s n (publishField Publicizer a s t d n c) = true
        /\ publishField Publicizer a s t d n c =
             Tabs d +:+ "if " +:+ s +:+ "." +:+ Goify n true +:+ " != nil {"
             +:+ nl
             +:+ Publicizer c (s +:+ "." +:+ Goify n true)
                   (t +:+ "." +:+ Goify n true)
                   (IsPrimitive (Type_ c) && negb (IsPrimitivePointer a n))
                   (d + 1) false
             +:+ nl +:+ Tabs d +:+ "}")
  /\ (forall n c, IsPrimitive (Type_ c) = true ->
        publishField Publicizer a s t d n c =
          Tabs d +:+ "if " +:+ s +:+ "." +:+ Goify n true +:+ " != nil {"
          +:+ nl
          +:+ (Tabs (d + 1) +:+ (t +:+ "." +:+ Goify n true) +:+ " = "
               +:+ (if IsPrimitivePointer a n then "" else "*")
               +:+ (s +:+ "." +:+ Goify n true))
          +:+ nl +:+ Tabs d +:+ "}")
  /\ (forall n c, IsObject (Type_ c) = true -> isNamed (Type_ c) = true ->
        publishField Publicizer a s t d n c =
          Tabs d +:+ "if " +:+ s +:+ "." +:+ Goify n true +:+ " != nil {"
          +:+ nl
          +:+ (Tabs (d + 1) +:+ (t +:+ "." +:+ Goify n true) +:+ " = "
               +:+ (s +:+ "." +:+ Goify n true) +:+ ".Publicize()")
          +:+ nl +:+ Tabs d +:+ "}")
  /\ (forall n c, IsObject (Type_ c) = true -> isNamed (Type_ c) = false ->
        publishField Publicizer a s t d n c =
          Tabs d +:+ "if " +:+ s +:+ "." +:+ Goify n true +:+ " != nil {"
          +:+ nl
          +:+ (Tabs (d + 1) +:+ (t +:+ "." +:+ Goify n true) +:+ " = &"
               +:+ GoTypeDef c (d + 1) true false +:+ "{}" +:+ nl
               +:+ RecursivePublicizer c (s +:+ "." +:+ Goify n true)
                     (t +:+ "." +:+ Goify n true) (d + 1))
          +:+ nl +:+ Tabs d +:+ "}").
Proof.
  intros Ha. split; [|split; [|split; [|split; [|split]]]].
  - rewrite Publicizer_eq, Ha. reflexivity.
  - unfold RecursivePublicizer, RecursivePublicizerWith. by rewrite Ha.
  - intros n c. split; [|reflexivity].
    unfold hasGuard, publishField, guarded.
    do 6 apply prefix_append_head. apply prefix_append.
  - intros n c Hc. unfold publishField, guarded.
    rewrite (Publicizer_primitive c) by done. rewrite Hc. simpl.
    by destruct (IsPrimitivePointer a n).
  - intros n c Hobj Hnamed. unfold publishField, guarded.
    rewrite Publicizer_eq, Hobj, Hnamed.
    assert (IsPrimitive (Type_ c) = false) as ->; [|reflexivity].
    unfold IsPrimitive, IsObject, AsObject in *.
    destruct (Type_ c) as [ty|]; [|done]. by destruct (underlying ty).
  - intros n c Hobj Hnamed. unfold publishField, guarded.
    rewrite Publicizer_eq, Hobj, Hnamed.
    assert (IsPrimitive (Type_ c) = false) as ->; [|reflexivity].
    unfold IsPrimitive, IsObject, AsObject in *.
    destruct (Type_ c) as [ty|]; [|done]. by destruct (underlying ty).
Qed.

End Publicizer.

Section PublicizerExamples.
Import design codegen spec samples.

(** C10, on a map from strings to arrays of strings. *)
Lemma Publicizer_map_without_object_witness :
  Publicizer (H := sampleHelpers) indexAtt "source" "target" false 0 false
  = "target = source"
  /\ (forall p, IsPrimitive (Type_ p) = true ->
        Publicizer (H := sampleHelpers) indexAtt "source" "target" false 0 false
        = Publicizer (H := sampleHelpers) p "source" "target" false 0 false).
Proof.
  apply (Publicizer_map_without_object (H := sampleHelpers)
           indexAtt stringAtt stringsAtt);
    reflexivity.
Defined.

(** C3, on an array of the user type [Owner], the allocation and the loop,
    and on an array of arrays of strings, the assignment. *)
Lemma Publicizer_array_witness :
  (AsArray (Type_ ownersAtt) = Some ownerAtt
   /\ IsObject (Type_ ownerAtt) = true
   /\ Publicizer (H := sampleHelpers) ownersAtt "source" "target" false 0 false
      = "target = make(T, len(source))" +:+ nl
        +:+ "for i0, elem0 := range source {" +:+ nl
        +:+ tab +:+ "target[i0] = elem0.Publicize()" +:+ nl
        +:+ "}")
  /\ (AsArray (Type_ matrixAtt) = Some stringsAtt
      /\ plain.holdsNoObjectAtt stringsAtt = true
      /\ Publicizer (H := sampleHelpers) matrixAtt "source" "target"
           false 0 false
         = "target = source").
Proof.
  split; (split; [reflexivity|]); (split; [reflexivity|]).
  - rewrite (proj1 (Publicizer_array (H := sampleHelpers) ownersAtt ownerAtt
                      "source" "target" false 0 false eq_refl) eq_refl).
    reflexivity.
  - exact (proj1 (proj2 (Publicizer_array (H := sampleHelpers) matrixAtt
                           stringsAtt "source" "target" false 0 false
                           eq_refl)) (or_intror eq_refl)).
Defined.

(** C3 as stated fails on an array of arrays of strings: the element type
    is not primitive, and the array is still published by the direct copy
    of the primitive case, without allocation or loop. *)
Lemma Publicizer_array_of_arrays :
  AsArray (Type_ matrixAtt) = Some stringsAtt
  /\ IsPrimitive (Type_ stringsAtt) = false
  /\ Publicizer (H := sampleHelpers) matrixAtt "source" "target" false 0 false
     = "target = source"
  /\ Publicizer (H := sampleHelpers) matrixAtt "source" "target" false 0 false
     = Publicizer (H := sampleHelpers) stringAtt "source" "target" false 0 false.
Proof. repeat split; reflexivity. Qed.

(** C2, on the object with the optional field [id] and the required field
    [owner]. *)
Lemma RecursivePublicizer_guards_witness :
  Type_ accountAtt = Some (Object [("id", stringAtt); ("owner", ownerAtt)])
  /\ RecursivePublicizer (H := sampleHelpers) accountAtt "source" "target" 0
     = "if source.id != nil {" +:+ nl
       +:+ tab +:+ "target.id = source.id" +:+ nl
       +:+ "}" +:+ nl
       +:+ "if source.owner != nil {" +:+ nl
       +:+ tab +:+ "target.owner = source.owner.Publicize()" +:+ nl
       +:+ "}".
Proof.
  split; [reflexivity|].
  destruct (RecursivePublicizer_guards (H := sampleHelpers) accountAtt
              [("id", stringAtt); ("owner", ownerAtt)]
              "source" "target" false 0 false eq_refl) as (_ & -> & _).
  reflexivity.
Defined.

(** C2 as stated fails on that object: the field [owner] is required, and
    its publication, the call of [Publicize], is wrapped in the test that
    the source field is not nil all the same. *)
Lemma RecursivePublicizer_required_field_guarded :
  IsRequired accountAtt "owner" = true
  /\ hasGuard (H := sampleHelpers) 0 "source" "owner"
       (publishField (H := sampleHelpers) (Publicizer (H := sampleHelpers))
          accountAtt "source" "target" 0 "owner" ownerAtt) = true
  /\ publishField (H := sampleHelpers) (Publicizer (H := sampleHelpers))
       accountAtt "source" "target" 0 "owner" ownerAtt
     = "if source.owner != nil {" +:+ nl
       +:+ tab +:+ "target.owner = source.owner.Publicize()" +:+ nl
       +:+ "}".
Proof. repeat split; reflexivity. Qed.

End PublicizerExamples.

(** ** The response DSL *)

Section ResponseDSL.
Import eval dsl dslspec.

(** Unfolds the monad of the DSL. *)
Ltac run :=
  unfold mbind, M_bind, mret, M_ret, Current, ReportError, IncompatibleDSL,
    loadResponse, loadAction, loadResource, modifyResponse, modifyAction,
    modifyResource, ActionExpr_Response, ResourceExpr_Response; simpl.

(** C8. [Status] writes the status of the active mutation target when that
    target is a response expression, and reports nothing; on any other
    target, or on none, it reports the incompatible-context error and
    changes nothing else. *)
Theorem Status_active_target (status : Z) (st : State) :
  match last (Stack st) with
  | Some (ResponseRef res) =>
      Status status st =
        (tt, set_responses
               (<[res := HTTPResponseExpr.set_Status status (responses st !!! res)]>
                  (responses st)) st)
      /\ HTTPResponseExpr.Status (responses (Status status st).2 !!! res) = status
      /\ Errors (Status status st).2 = Errors st
  | _ =>
      Status status st =
        (tt, set_Errors (Errors st ++ [IncompatibleDSLError "Status"]) st)
  end.
Proof.
  unfold Status. run.
  destruct (last (Stack st)) as [[def|def|res|def]|]; try reflexivity.
  split; [reflexivity|]. split; [|reflexivity].
  simpl. by rewrite lookup_total_insert_eq.
Qed.

(** The definition of a response in a scope that holds none of that name
    goes through [executeResponseDSL]. *)
Lemma Response_in_scope (name : string) (args : list Arg) (st : State)
    (scope : Expression) (rs : list loc) :
  last (Stack st) = Some scope ->
  scopeResponses st scope = Some rs ->
  findResponse st name rs = None ->
  Response name args st =
    match executeResponseDSL name args st with
    | (Some r, st1) =>
        let x := responses st1 !!! r in
        let st2 :=
          if needsMediaType x then
            set_responses
              (<[r := HTTPResponseExpr.set_MediaType
                        (defaultMediaType st1 scope) x]> (responses st1)) st1
          else st1 in
        let st3 :=
          set_responses
            (<[r := HTTPResponseExpr.set_Parent (Some scope)
                      (responses st2 !!! r)]> (responses st2)) st2 in
        (tt,
         match scope with
         | ActionRef def =>
             set_actions
               (<[def := ActionExpr.set_Responses
                           (ActionExpr.Responses (actions st3 !!! def) ++ [r])
                           (actions st3 !!! def)]> (actions st3)) st3
         | ResourceRef def =>
             set_resources
               (<[def := ResourceExpr.set_Responses
                           (ResourceExpr.Responses (resources st3 !!! def) ++ [r])
                           (resources st3 !!! def)]> (resources st3)) st3
         | _ => st3
         end)
    | (None, st1) => (tt, st1)
    end.
Proof.
  intros Hcur Hscope Hnone. unfold Response. run. rewrite Hcur.
  destruct scope as [def|def|def|def]; simpl in Hscope; try discriminate;
    injection Hscope as <-; rewrite Hnone;
    destruct (executeResponseDSL name args st) as [[r|] st1]; try reflexivity;
    simpl; destruct (needsMediaType (responses st1 !!! r)); reflexivity.
Qed.

(** The definition of a response in a scope that holds one of that name
    stops on the error. *)
Lemma Response_duplicate (name : string) (args : list Arg) (st : State)
    (scope : Expression) (rs : list loc) (r : loc) :
  last (Stack st) = Some scope ->
  scopeResponses st scope = Some rs ->
  findResponse st name rs = Some r ->
  Response name args st =
    (tt, set_Errors (Errors st ++ [DefinedTwice name]) st).
Proof.
  intros Hcur Hscope Hfound. unfold Response. run. rewrite Hcur.
  destruct scope as [def|def|def|def]; simpl in Hscope; try discriminate;
    injection Hscope as <-; by rewrite Hfound.
Qed.

(** C1. In a scope, action or resource, that already holds a response of
    the name, [Response] reports the one error that the response is defined
    twice and changes nothing else: the responses of the scope, and the
    whole store, are as before. *)
Theorem Response_defined_twice (name : string) (args : list Arg) (st : State)
    (scope : Expression) (rs : list loc) (r : loc) :
  last (Stack st) = Some scope ->
  scopeResponses st scope = Some rs ->
  findResponse st name rs = Some r ->
  Response name args st =
    (tt, set_Errors (Errors st ++ [DefinedTwice name]) st)
  /\ scopeResponses (Response name args st).2 scope = Some rs.
Proof.
  intros Hcur Hscope Hfound.
  rewrite (Response_duplicate name args st scope rs r) by done.
  split; [reflexivity|]. by destruct scope.
Qed.

(** With template parameters, [executeResponseDSL] reports one error and
    returns nil. *)
Lemma executeResponseDSL_template_parameters (name : string)
    (args : list Arg) (st : State) :
  templateParams args <> [] ->
  executeResponseDSL name args st =
    (None,
     set_Errors (Errors st ++ [templateError name (templateParams args)]) st).
Proof.
  intros Hparams. unfold executeResponseDSL, templateError.
  fold (templateParams args).
  destruct (stringParams (templateParams args)) as [p|params] eqn:Hs;
    [reflexivity|].
  destruct params as [|s params]; [|reflexivity].
  destruct (templateParams args) as [|[fn|dt|s|] ps]; [done|..];
    simpl in Hs; try discriminate.
  by destruct (stringParams ps).
Qed.

(** C4. When arguments remain once the trailing block and the body type
    are taken off, [Response] reports exactly one error and changes nothing
    else, whatever the active target: no response is created or attached.
    In a scope that does not hold the name yet, the error is that of the
    template parameters. *)
Theorem Response_template_parameters (name : string) (args : list Arg)
    (st : State) :
  templateParams args <> [] ->
  exists e,
    Response name args st = (tt, set_Errors (Errors st ++ [e]) st)
    /\ (forall scope rs,
          last (Stack st) = Some scope ->
          scopeResponses st scope = Some rs ->
          findResponse st name rs = None ->
          e = templateError name (templateParams args)).
Proof.
  intros Hparams.
  destruct (last (Stack st)) as [scope|] eqn:Hcur.
  - destruct (scopeResponses st scope) as [rs|] eqn:Hscope.
    + destruct (findResponse st name rs) as [r|] eqn:Hfind.
      * exists (DefinedTwice name). split.
        -- by apply (Response_duplicate name args st scope rs r).
        -- intros scope' rs' [= <-] Hs' Hf'. congruence.
      * exists (templateError name (templateParams args)). split; [|done].
        rewrite (Response_in_scope name args st scope rs) by done.
        by rewrite executeResponseDSL_template_parameters.
    + exists (IncompatibleDSLError "Response"). split.
      * unfold Response. run. rewrite Hcur. by destruct scope.
      * intros scope' rs' [= <-] Hs'. congruence.
  - exists (IncompatibleDSLError "Response"). split.
    + unfold Response. run. by rewrite Hcur.
    + intros scope rs. discriminate.
Qed.

(** The base expression is allocated at a fresh location and holds what
    the spec says. *)
Lemma baseResponse_spec (name : string) (st : State) :
  baseResponse name st =
    (fresh (dom (responses st)),
     set_responses
       (<[fresh (dom (responses st)) := baseExpression st name]> (responses st))
       st).
Proof.
  unfold baseResponse, baseExpression, Root_Response, Root_DefaultResponse,
    Dup, newResponse. run.
  destruct (RootResponses st !! name) as [ar|]; [reflexivity|].
  destruct (RootDefaultResponses st !! name) as [ar|]; [|reflexivity].
  unfold set_responses. simpl.
  by rewrite lookup_total_insert_eq, insert_insert_eq.
Qed.

(** C5. The expression a definition starts from is resolved in a fixed
    order: the copy of the user-defined response of the name, else the copy
    of the default response template of the name with the standard flag
    set, else an expression with only the name set.  Without arguments that
    base is the result; with a block, the block runs with that base as its
    target. *)
Theorem executeResponseDSL_base (name : string) (st : State) :
  baseResponse name st =
    (fresh (dom (responses st)),
     set_responses
       (<[fresh (dom (responses st)) := baseExpression st name]> (responses st))
       st)
  /\ executeResponseDSL name [] st =
       (Some (fresh (dom (responses st))),
        set_responses
          (<[fresh (dom (responses st)) := baseExpression st name]>
             (responses st)) st)
  /\ (forall fn : DSLFunc,
        executeResponseDSL name [ArgFunc (Some fn)] st =
          (ok ← Execute fn (ResponseRef (fresh (dom (responses st))));
           if negb ok then mret None
           else
             modifyResponse (fresh (dom (responses st)))
               (HTTPResponseExpr.set_Standard false);;
             mret (Some (fresh (dom (responses st)))))
          (set_responses
             (<[fresh (dom (responses st)) := baseExpression st name]>
                (responses st)) st)).
Proof.
  split; [apply baseResponse_spec|]. split.
  - unfold executeResponseDSL. simpl. unfold mbind, M_bind at 1.
    by rewrite baseResponse_spec.
  - intros fn. unfold executeResponseDSL. simpl. unfold mbind at 1.
    unfold M_bind at 1. by rewrite baseResponse_spec.
Qed.

(** What [executeResponseDSL] returns for a definition with a block is not
    standard. *)
Lemma executeResponseDSL_clears_Standard (name : string) (args : list Arg)
    (fn : DSLFunc) (st st' : State) (r : loc) :
  (takeDSL args).1 = Some fn ->
  executeResponseDSL name args st = (Some r, st') ->
  HTTPResponseExpr.Standard (responses st' !!! r) = false.
Proof.
  intros Hfn. unfold executeResponseDSL. rewrite Hfn.
  destruct (stringParams _) as [p|params]; [discriminate|].
  destruct (bool_decide _); [discriminate|].
  unfold mbind, M_bind at 1.
  destruct (baseResponse name st) as [resp st0].
  unfold M_bind at 1.
  destruct (Execute fn (ResponseRef resp) st0) as [[] st1]; simpl;
    [|discriminate].
  unfold M_bind at 1. unfold modifyResponse at 1.
  unfold applyDataType.
  destruct ((takeDataType (takeDSL args).2).1) as [dt|].
  - destruct dt; run; intros [= <- <-]; simpl;
      by rewrite lookup_total_insert_eq.
  - run. intros [= <- <-]. simpl. by rewrite lookup_total_insert_eq.
Qed.

(** The result of [executeResponseDSL] on a definition with a block: the
    location is the one the base expression was allocated at, the block ran
    with that base as its target and succeeded, and the final state is the
    one the block left with, at that location, the expression of the block
    with the standard flag cleared and the body type, if any, written. *)
Lemma executeResponseDSL_block_result (name : string) (args : list Arg)
    (fn : DSLFunc) (st st' : State) (r : loc) :
  (takeDSL args).1 = Some fn ->
  executeResponseDSL name args st = (Some r, st') ->
  r = fresh (dom (responses st))
  /\ exists st1,
       Execute fn (ResponseRef r)
         (set_responses (<[r := baseExpression st name]> (responses st)) st)
       = (true, st1)
       /\ st' =
            set_responses
              (<[r := match (takeDataType (takeDSL args).2).1 with
                      | Some dt =>
                          dslforms.withDataType dt
                            (HTTPResponseExpr.set_Standard false
                               (responses st1 !!! r))
                      | None =>
                          HTTPResponseExpr.set_Standard false
                            (responses st1 !!! r)
                      end]> (responses st1)) st1.
Proof.
  intros Hfn. unfold executeResponseDSL. rewrite Hfn.
  destruct (stringParams _) as [p|params]; [discriminate|].
  destruct (bool_decide _); [discriminate|].
  unfold mbind, M_bind at 1. rewrite baseResponse_spec.
  unfold M_bind at 1.
  destruct (Execute fn _ _) as [[] st1] eqn:Hrun; simpl; [|discriminate].
  unfold M_bind at 1. unfold modifyResponse at 1.
  unfold applyDataType, dslforms.withDataType.
  destruct ((takeDataType (takeDSL args).2).1) as [dt|].
  - destruct dt; run; intros [= <- <-]; (split; [reflexivity|]);
      exists st1; (split; [exact Hrun|]);
      unfold set_responses; simpl;
      by rewrite ?lookup_total_insert_eq, ?insert_insert_eq.
  - run. intros [= <- <-]. split; [reflexivity|].
    exists st1. by split.
Qed.

(** C9. The expression [executeResponseDSL] returns for a definition with a
    block is the base expression as the block left it, held by the store at
    the location it was allocated at, and it is not standard, whatever the
    base was and whatever the block did; it is still held and not standard
    once [Response] has attached it to the scope. *)
Theorem executeResponseDSL_block_not_standard (name : string)
    (args : list Arg) (fn : DSLFunc) (st st' : State) (r : loc) :
  (takeDSL args).1 = Some fn ->
  executeResponseDSL name args st = (Some r, st') ->
  HTTPResponseExpr.Standard (responses st' !!! r) = false
  /\ (forall scope rs,
        last (Stack st) = Some scope ->
        scopeResponses st scope = Some rs ->
        findResponse st name rs = None ->
        HTTPResponseExpr.Standard (responses (Response name args st).2 !!! r)
        = false)
  /\ r = fresh (dom (responses st))
  /\ (exists st1,
        Execute fn (ResponseRef r)
          (set_responses (<[r := baseExpression st name]> (responses st)) st)
        = (true, st1)
        /\ st' =
             set_responses
               (<[r := match (takeDataType (takeDSL args).2).1 with
                       | Some dt =>
                           dslforms.withDataType dt
                             (HTTPResponseExpr.set_Standard false
                                (responses st1 !!! r))
                       | None =>
                           HTTPResponseExpr.set_Standard false
                             (responses st1 !!! r)
                       end]> (responses st1)) st1)
  /\ (exists x, responses st' !! r = Some x
                /\ HTTPResponseExpr.Standard x = false)
  /\ (forall scope rs,
        last (Stack st) = Some scope ->
        scopeResponses st scope = Some rs ->
        findResponse st name rs = None ->
        exists y, responses (Response name args st).2 !! r = Some y
                  /\ HTTPResponseExpr.Standard y = false).
Proof.
  intros Hfn Hexec.
  pose proof (executeResponseDSL_clears_Standard _ _ _ _ _ _ Hfn Hexec) as Hstd.
  destruct (executeResponseDSL_block_result _ _ _ _ _ _ Hfn Hexec)
    as (Hr & st1 & Hrun & Hst').
  assert (Hheld : exists x, responses st' !! r = Some x
                            /\ HTTPResponseExpr.Standard x = false).
  { rewrite Hst'. simpl. rewrite lookup_insert_eq. eexists. split; [done|].
    unfold dslforms.withDataType.
    by destruct ((takeDataType (takeDSL args).2).1). }
  split; [exact Hstd|]. split; [|split; [exact Hr|split; [by exists st1|]]].
  - intros scope rs Hcur Hscope Hnone.
    rewrite (Response_in_scope name args st scope rs) by done.
    rewrite Hexec. cbv zeta.
    destruct scope as [def|def|def|def]; simpl in Hscope; try discriminate;
      destruct (needsMediaType (responses st' !!! r)); simpl;
      rewrite ?lookup_total_insert_eq; simpl;
      rewrite ?lookup_total_insert_eq; done.
  - split; [exact Hheld|].
    intros scope rs Hcur Hscope Hnone.
    rewrite (Response_in_scope name args st scope rs) by done.
    rewrite Hexec. cbv zeta.
    destruct scope as [def|def|def|def]; simpl in Hscope; try discriminate;
      destruct (needsMediaType (responses st' !!! r)); simpl;
      rewrite lookup_insert_eq; eexists; (split; [reflexivity|]);
      simpl; rewrite ?lookup_total_insert_eq; simpl; exact Hstd.
Qed.

(** C6. When [executeResponseDSL] has built the expression, [Response]
    gives it the default media type of the scope if its status is 200 and
    its media type is unset, and leaves its media type alone otherwise; it
    then sets its parent and appends it to the responses of the scope. *)
Theorem Response_default_media_type (name : string) (args : list Arg)
    (st st1 : State) (scope : Expression) (rs rs1 : list loc) (r : loc) :
  last (Stack st) = Some scope ->
  scopeResponses st scope = Some rs ->
  findResponse st name rs = None ->
  executeResponseDSL name args st = (Some r, st1) ->
  scopeResponses st1 scope = Some rs1 ->
  HTTPResponseExpr.MediaType (responses (Response name args st).2 !!! r) =
    (if bool_decide (HTTPResponseExpr.Status (responses st1 !!! r) = 200%Z)
        && String.eqb (HTTPResponseExpr.MediaType (responses st1 !!! r)) ""
     then defaultMediaType st1 scope
     else HTTPResponseExpr.MediaType (responses st1 !!! r))
  /\ HTTPResponseExpr.Status (responses (Response name args st).2 !!! r) =
       HTTPResponseExpr.Status (responses st1 !!! r)
  /\ HTTPResponseExpr.Parent (responses (Response name args st).2 !!! r) =
       Some scope
  /\ scopeResponses (Response name args st).2 scope = Some (rs1 ++ [r]).
Proof.
  intros Hcur Hscope Hnone Hexec Hscope1.
  rewrite (Response_in_scope name args st scope rs) by done.
  rewrite Hexec. fold (needsMediaType (responses st1 !!! r)). cbv zeta.
  destruct scope as [def|def|def|def]; simpl in Hscope1; try discriminate;
    injection Hscope1 as <-;
    destruct (needsMediaType (responses st1 !!! r)); simpl;
    rewrite ?lookup_total_insert_eq; simpl;
    rewrite ?lookup_total_insert_eq; done.
Qed.

End ResponseDSL.

Section ResponseDSLExamples.
Import eval dsl dslspec samples.

(** C1, on the response [OK] defined twice in the action: the second
    definition reports the error and the action keeps its two responses. *)
Lemma Response_defined_twice_witness :
  Response "OK" [] (Response "OK" [] inAction).2 =
    (tt, set_Errors [DefinedTwice "OK"] (Response "OK" [] inAction).2)
  /\ scopeResponses (Response "OK" [] (Response "OK" [] inAction).2).2
       (ActionRef 0) = Some [1; 2].
Proof.
  apply (Response_defined_twice "OK" [] (Response "OK" [] inAction).2
           (ActionRef 0) [1; 2] 2); reflexivity.
Defined.

(** C4, on [Response(OK, "text/plain")] in the action. *)
Lemma Response_template_parameters_witness :
  templateParams [ArgString "text/plain"] <> []
  /\ exists e,
       Response "OK" [ArgString "text/plain"] inAction =
         (tt, set_Errors (Errors inAction ++ [e]) inAction)
       /\ (forall scope rs,
             last (Stack inAction) = Some scope ->
             scopeResponses inAction scope = Some rs ->
             findResponse inAction "OK" rs = None ->
             e = templateError "OK" (templateParams [ArgString "text/plain"])).
Proof.
  split; [discriminate|].
  apply (Response_template_parameters "OK" [ArgString "text/plain"] inAction).
  discriminate.
Defined.

(** C9, on [Response(OK, func() {})] in the action: the base is the default
    template, marked standard, the block does nothing, and the store holds
    the result, which is the base with the flag cleared. *)
Lemma executeResponseDSL_block_not_standard_witness :
  HTTPResponseExpr.Standard (baseExpression inAction "OK") = true
  /\ responses (executeResponseDSL "OK" [ArgFunc (Some (mret tt))] inAction).2
       !! 2
     = Some (HTTPResponseExpr.set_Standard false (baseExpression inAction "OK"))
  /\ (exists x,
        responses (executeResponseDSL "OK" [ArgFunc (Some (mret tt))] inAction).2
          !! 2 = Some x
        /\ HTTPResponseExpr.Standard x = false)
  /\ (exists y,
        responses (Response "OK" [ArgFunc (Some (mret tt))] inAction).2 !! 2
        = Some y
        /\ HTTPResponseExpr.Standard y = false).
Proof.
  split; [reflexivity|]. split; [reflexivity|].
  assert (Hexec : executeResponseDSL "OK" [ArgFunc (Some (mret tt))] inAction =
            (Some 2,
             (executeResponseDSL "OK" [ArgFunc (Some (mret tt))] inAction).2))
    by reflexivity.
  destruct (executeResponseDSL_block_not_standard "OK"
              [ArgFunc (Some (mret tt))] (mret tt) inAction _ 2
              eq_refl Hexec) as (_ & _ & _ & _ & Hheld & Hresp).
  split; [exact Hheld|].
  exact (Hresp (ActionRef 0) [1] eq_refl eq_refl eq_refl).
Defined.

(** C6, on [Response(OK)] in the action: the default template has status
    200 and no media type, and the response takes the media type of the
    resource. *)
Lemma Response_default_media_type_witness :
  HTTPResponseExpr.MediaType (responses (Response "OK" [] inAction).2 !!! 2) =
    "application/vnd.account"
  /\ HTTPResponseExpr.Status (responses (Response "OK" [] inAction).2 !!! 2) =
       200%Z
  /\ HTTPResponseExpr.Parent (responses (Response "OK" [] inAction).2 !!! 2) =
       Some (ActionRef 0)
  /\ scopeResponses (Response "OK" [] inAction).2 (ActionRef 0) = Some [1; 2].
Proof.
  apply (Response_default_media_type "OK" [] inAction
           (executeResponseDSL "OK" [] inAction).2 (ActionRef 0) [1] [1] 2);
    reflexivity.
Defined.

(** With a block that sets the status to 201 the response keeps its empty
    media type: the default is for the status 200 only. *)
Example Response_OK_Status_201 :
  HTTPResponseExpr.Status
    (responses (Response "OK" [ArgFunc (Some (Status 201))] inAction).2 !!! 2)
  = 201%Z
  /\ HTTPResponseExpr.MediaType
       (responses (Response "OK" [ArgFunc (Some (Status 201))] inAction).2 !!! 2)
     = "".
Proof. split; reflexivity. Qed.

(** A body type that is a media type sets the media type to its
    identifier. *)
Example Response_OK_BottleMedia :
  HTTPResponseExpr.Status
    (responses (Response "OK" [ArgDataType BottleMedia] inAction).2 !!! 2)
  = 200%Z
  /\ HTTPResponseExpr.MediaType
       (responses (Response "OK" [ArgDataType BottleMedia] inAction).2 !!! 2)
     = "application/vnd.bottle".
Proof. split; reflexivity. Qed.

End ResponseDSLExamples.

(** * Further properties of the response DSL *)

Section ResponseDSLMore.
Import eval dsl dslspec dslforms.

Ltac run :=
  unfold mbind, M_bind, mret, M_ret, Current, ReportError, IncompatibleDSL,
    loadResponse, loadAction, loadResource, modifyResponse, modifyAction,
    modifyResource, ActionExpr_Response, ResourceExpr_Response; simpl.

(** The trailing block and what is left of the arguments. *)
Lemma takeDSL_snoc (args : list Arg) (fn : option DSLFunc) :
  takeDSL (args ++ [ArgFunc fn]) = (fn, args).
Proof. unfold takeDSL. by rewrite last_snoc, removelast_last. Qed.

Lemma takeDSL_inv (args : list Arg) :
  (exists fn, args = (takeDSL args).2 ++ [ArgFunc fn]
              /\ (takeDSL args).1 = fn)
  \/ ((takeDSL args).2 = args /\ (takeDSL args).1 = None).
Proof.
  unfold takeDSL. destruct (last args) as [[fn|dt|s|]|] eqn:Hlast; auto.
  left. exists fn. apply last_Some in Hlast as [l' ->].
  by rewrite removelast_last.
Qed.

(** The body type step, in one write. *)
Lemma applyDataType_Some (dt : design.DataType) (r : loc) (st : State) :
  applyDataType (Some dt) r st =
    (Some r,
     set_responses
       (<[r := withDataType dt (responses st !!! r)]> (responses st)) st).
Proof.
  unfold applyDataType, withDataType.
  destruct dt; run; unfold set_responses; simpl;
    rewrite ?lookup_total_insert_eq, ?insert_insert_eq; reflexivity.
Qed.

(** [executeResponseDSL] on a list without block and without template
    parameters. *)
Lemma executeResponseDSL_no_block (name : string) (args : list Arg)
    (st : State) :
  (takeDSL args).1 = None ->
  templateParams args = [] ->
  executeResponseDSL name args st =
    (Some (fresh (dom (responses st))),
     set_responses
       (<[fresh (dom (responses st)) :=
            match (takeDataType (takeDSL args).2).1 with
            | Some dt => withDataType dt (baseExpression st name)
            | None => baseExpression st name
            end]> (responses st)) st).
Proof.
  intros Hfn Hparams. unfold executeResponseDSL.
  fold (templateParams args). rewrite Hparams, Hfn. simpl.
  unfold mbind, M_bind at 1. rewrite baseResponse_spec.
  destruct ((takeDataType (takeDSL args).2).1) as [dt|]; [|reflexivity].
  rewrite applyDataType_Some. unfold set_responses. simpl.
  by rewrite lookup_total_insert_eq, insert_insert_eq.
Qed.

(** X1. [executeResponseDSL] goes past its checks of the arguments exactly
    for the lists made of an optional body type followed by an optional
    block.  On such a list the parsing of lines 124-134 recovers the body
    type and the block, no template parameter is left, and the function
    resolves the base expression and goes on with that block and that body
    type; without a block it returns the expression and reports nothing.
    On every other list it reports the error of the template parameters,
    returns nil and changes nothing else. *)
Theorem templateParams_nil_iff (args : list Arg) :
  (templateParams args = [] <-> exists dt fn, args = argsOf dt fn)
  /\ (forall dt fn,
        (takeDataType (takeDSL (argsOf dt fn)).2).1 = dt
        /\ (takeDSL (argsOf dt fn)).1 = mjoin fn)
  /\ (forall name st dt fn,
        args = argsOf dt fn ->
        stringParams (templateParams args) = inr []
        /\ executeResponseDSL name args st =
             (resp ← baseResponse name;
              match mjoin fn with
              | Some f =>
                  ok ← Execute f (ResponseRef resp);
                  if negb ok then (mret None : M (option loc))
                  else
                    modifyResponse resp (HTTPResponseExpr.set_Standard false);;
                    applyDataType dt resp
              | None => applyDataType dt resp
              end) st)
  /\ (forall name st dt fn,
        args = argsOf dt fn -> mjoin fn = None ->
        (executeResponseDSL name args st).1 = Some (fresh (dom (responses st)))
        /\ Errors (executeResponseDSL name args st).2 = Errors st)
  /\ (forall name st,
        ~ (exists dt fn, args = argsOf dt fn) ->
        executeResponseDSL name args st =
          (None,
           set_Errors
             (Errors st ++ [templateError name (templateParams args)]) st)).
Proof.
  assert (Hiff : templateParams args = [] <-> exists dt fn, args = argsOf dt fn).
  { split.
    - unfold templateParams. intros Hnil.
      assert (Hrest : (takeDSL args).2 = []
                      \/ exists dt, (takeDSL args).2 = [ArgDataType dt]).
      { destruct (takeDSL args).2 as [|[fn|dt|s|] rest]; simpl in Hnil;
          try discriminate; [by left|]. right. exists dt. by rewrite Hnil. }
      destruct (takeDSL_inv args) as [(fn & Hargs & _)|[Hargs _]].
      + destruct Hrest as [Hr|[dt Hr]]; rewrite Hr in Hargs.
        * by exists None, (Some fn).
        * by exists (Some dt), (Some fn).
      + destruct Hrest as [Hr|[dt Hr]]; rewrite Hr in Hargs.
        * by exists None, None.
        * by exists (Some dt), None.
    - intros (dt & fn & ->). by destruct dt, fn. }
  assert (Hparse : forall dt fn,
             (takeDataType (takeDSL (argsOf dt fn)).2).1 = dt
             /\ (takeDSL (argsOf dt fn)).1 = mjoin fn).
  { intros dt fn. by destruct dt, fn as [[fn|]|]. }
  split; [exact Hiff|]. split; [exact Hparse|]. split; [|split].
  - intros name st dt fn ->.
    assert (Hnil : templateParams (argsOf dt fn) = [])
      by (apply Hiff; eauto).
    rewrite Hnil. split; [reflexivity|].
    unfold executeResponseDSL. fold (templateParams (argsOf dt fn)).
    rewrite Hnil. simpl.
    destruct (Hparse dt fn) as [-> ->]. reflexivity.
  - intros name st dt fn -> Hfn.
    assert (Hnil : templateParams (argsOf dt fn) = [])
      by (apply Hiff; eauto).
    destruct (Hparse dt fn) as [Hdt Hblock]. rewrite Hfn in Hblock.
    by rewrite (executeResponseDSL_no_block name _ st Hblock Hnil).
  - intros name st Hnot.
    apply executeResponseDSL_template_parameters.
    intros Hnil. apply Hnot. by apply Hiff.
Qed.

(** What [Response] does with an expression [executeResponseDSL] built at
    [r] without touching anything else. *)
Lemma Response_attaches (name : string) (args : list Arg) (st : State)
    (scope : Expression) (rs : list loc) (r : loc) (x : HTTPResponseExpr.t) :
  last (Stack st) = Some scope ->
  scopeResponses st scope = Some rs ->
  findResponse st name rs = None ->
  executeResponseDSL name args st =
    (Some r, set_responses (<[r := x]> (responses st)) st) ->
  Response name args st =
    (tt,
     appendResponse scope r
       (set_responses
          (<[r := attached scope (defaultMediaType st scope) x]> (responses st))
          st)).
Proof.
  intros Hcur Hscope Hnone Hexec.
  rewrite (Response_in_scope name args st scope rs) by done.
  rewrite Hexec. cbv zeta. unfold attached. simpl.
  rewrite lookup_total_insert_eq.
  destruct scope as [def|def|def|def]; simpl in Hscope; try discriminate;
    destruct (needsMediaType x); unfold set_responses, appendResponse; simpl;
    rewrite ?lookup_total_insert_eq, ?insert_insert_eq; reflexivity.
Qed.

(** A block made of the call [Status(n)] succeeds and writes the status of
    its target. *)
Lemma Execute_Status (n : Z) (r : loc) (st : State) :
  Execute (Status n) (ResponseRef r) st =
    (true,
     set_responses
       (<[r := HTTPResponseExpr.set_Status n (responses st !!! r)]>
          (responses st)) st).
Proof.
  unfold Execute, Status. run. rewrite last_snoc. simpl.
  rewrite removelast_last. rewrite bool_decide_eq_true_2 by lia.
  by destruct st.
Qed.

(** A block made of a call of [Response] fails: its target is a response,
    not a scope. *)
Lemma Execute_Response (name : string) (args : list Arg) (r : loc)
    (st : State) :
  Execute (Response name args) (ResponseRef r) st =
    (false, set_Errors (Errors st ++ [IncompatibleDSLError "Response"]) st).
Proof.
  unfold Execute, Response. run. rewrite last_snoc. simpl.
  rewrite removelast_last, length_app. simpl.
  rewrite bool_decide_eq_false_2 by lia.
  by destruct st.
Qed.

(** Appending to a scope changes the responses of that scope only. *)
Lemma appendResponse_scopeResponses (scope : Expression) (rs : list loc)
    (r : loc) (st : State) :
  scopeResponses st scope = Some rs ->
  scopeResponses (appendResponse scope r st) scope = Some (rs ++ [r]).
Proof.
  destruct scope as [def|def|def|def]; simpl; try discriminate;
    intros [= <-]; by rewrite lookup_total_insert_eq.
Qed.

Lemma appendResponse_frame (scope : Expression) (r : loc) (st : State) :
  responses (appendResponse scope r st) = responses st
  /\ Stack (appendResponse scope r st) = Stack st
  /\ Errors (appendResponse scope r st) = Errors st
  /\ RootResponses (appendResponse scope r st) = RootResponses st
  /\ RootDefaultResponses (appendResponse scope r st) =
       RootDefaultResponses st.
Proof. by destruct scope. Qed.

(** X2. When a definition has a body type and succeeds, the body type is
    written last, after the block if there is one: the expression has that
    type, is not standard, and for a media type its media type is the
    identifier of the media type, whatever the block set. *)
Theorem executeResponseDSL_body_type (name : string) (args : list Arg)
    (dt : design.DataType) (st st' : State) (r : loc) :
  (takeDataType (takeDSL args).2).1 = Some dt ->
  executeResponseDSL name args st = (Some r, st') ->
  (exists st1,
     st' = set_responses
             (<[r := withDataType dt (responses st1 !!! r)]> (responses st1))
             st1)
  /\ HTTPResponseExpr.Type_ (responses st' !!! r) = Some dt
  /\ HTTPResponseExpr.Standard (responses st' !!! r) = false
  /\ (forall n id a, dt = design.MediaTypeExpr n id a ->
        HTTPResponseExpr.MediaType (responses st' !!! r) = id).
Proof.
  intros Hdt Hexec.
  assert (Hst : exists st1,
             st' = set_responses
                     (<[r := withDataType dt (responses st1 !!! r)]>
                        (responses st1)) st1).
  { revert Hexec. unfold executeResponseDSL. rewrite Hdt.
    destruct (stringParams _) as [p|params]; [discriminate|].
    destruct (bool_decide _); [discriminate|].
    unfold mbind, M_bind at 1.
    destruct (baseResponse name st) as [resp st0].
    destruct ((takeDSL args).1) as [fn|].
    - unfold M_bind at 1.
      destruct (Execute fn (ResponseRef resp) st0) as [[] st1]; simpl;
        [|discriminate].
      unfold M_bind at 1. unfold modifyResponse at 1.
      fold (applyDataType (Some dt) resp).
      rewrite applyDataType_Some. intros [= <- <-].
      match goal with |- exists _, set_responses _ ?s = _ => by exists s end.
    - rewrite applyDataType_Some. intros [= <- <-]. by exists st0. }
  split; [exact Hst|]. destruct Hst as [st1 ->]. simpl.
  rewrite lookup_total_insert_eq.
  split; [reflexivity|]. split; [reflexivity|].
  by intros n id a ->.
Qed.

(** X3. [Response(name, dt)] in a scope that does not hold the name attaches
    the base expression with the body type written on it; when the body type
    is a media type with an identifier, the response has that identifier as
    media type and the default media type of the scope is not used, whatever
    the status. *)
Theorem Response_body_type (name : string) (dt : design.DataType)
    (st : State) (scope : Expression) (rs : list loc) :
  last (Stack st) = Some scope ->
  scopeResponses st scope = Some rs ->
  findResponse st name rs = None ->
  Response name [ArgDataType dt] st =
    (tt,
     appendResponse scope (fresh (dom (responses st)))
       (set_responses
          (<[fresh (dom (responses st)) :=
               attached scope (defaultMediaType st scope)
                 (withDataType dt (baseExpression st name))]> (responses st))
          st))
  /\ (forall n id a, dt = design.MediaTypeExpr n id a -> id <> "" ->
        HTTPResponseExpr.MediaType
          (responses (Response name [ArgDataType dt] st).2
           !!! fresh (dom (responses st))) = id)
  /\ HTTPResponseExpr.Type_
       (responses (Response name [ArgDataType dt] st).2
        !!! fresh (dom (responses st))) = Some dt
  /\ Errors (Response name [ArgDataType dt] st).2 = Errors st.
Proof.
  intros Hcur Hscope Hnone.
  pose proof (Response_attaches name [ArgDataType dt] st scope rs _ _
                Hcur Hscope Hnone
                (executeResponseDSL_no_block name [ArgDataType dt] st
                   eq_refl eq_refl)) as Heq.
  simpl in Heq. split; [exact Heq|]. rewrite Heq. simpl.
  destruct (appendResponse_frame scope (fresh (dom (responses st)))
              (set_responses
                 (<[fresh (dom (responses st)) :=
                      attached scope (defaultMediaType st scope)
                        (withDataType dt (baseExpression st name))]>
                    (responses st)) st)) as (-> & _ & -> & _).
  simpl. rewrite lookup_total_insert_eq.
  split; [|split; [|reflexivity]].
  - intros n id a -> Hid. unfold attached, needsMediaType. simpl.
    apply String.eqb_neq in Hid. rewrite Hid, andb_false_r. reflexivity.
  - unfold attached. by destruct (needsMediaType _).
Qed.

(** [executeResponseDSL] on the block [func() { Status(n) }]. *)
Lemma executeResponseDSL_Status (name : string) (n : Z) (st : State) :
  executeResponseDSL name [ArgFunc (Some (Status n))] st =
    (Some (fresh (dom (responses st))),
     set_responses
       (<[fresh (dom (responses st)) :=
            HTTPResponseExpr.set_Standard false
              (HTTPResponseExpr.set_Status n (baseExpression st name))]>
          (responses st)) st).
Proof.
  unfold executeResponseDSL. simpl. unfold mbind, M_bind at 1.
  rewrite baseResponse_spec. unfold M_bind at 1. rewrite Execute_Status.
  simpl. run. unfold set_responses. simpl.
  by rewrite !lookup_total_insert_eq, !insert_insert_eq.
Qed.

(** X4. [Response(name, func() { Status(n) })] in a scope that does not hold
    the name attaches an expression whose status is [n], whatever the
    template said, and that is not standard; it reports no error and leaves
    the stack of targets as it was. *)
Theorem Response_Status_block (name : string) (n : Z) (st : State)
    (scope : Expression) (rs : list loc) :
  last (Stack st) = Some scope ->
  scopeResponses st scope = Some rs ->
  findResponse st name rs = None ->
  Response name [ArgFunc (Some (Status n))] st =
    (tt,
     appendResponse scope (fresh (dom (responses st)))
       (set_responses
          (<[fresh (dom (responses st)) :=
               attached scope (defaultMediaType st scope)
                 (HTTPResponseExpr.set_Standard false
                    (HTTPResponseExpr.set_Status n (baseExpression st name)))]>
             (responses st)) st))
  /\ HTTPResponseExpr.Status
       (responses (Response name [ArgFunc (Some (Status n))] st).2
        !!! fresh (dom (responses st))) = n
  /\ HTTPResponseExpr.Standard
       (responses (Response name [ArgFunc (Some (Status n))] st).2
        !!! fresh (dom (responses st))) = false
  /\ Errors (Response name [ArgFunc (Some (Status n))] st).2 = Errors st
  /\ Stack (Response name [ArgFunc (Some (Status n))] st).2 = Stack st
  /\ scopeResponses (Response name [ArgFunc (Some (Status n))] st).2 scope =
       Some (rs ++ [fresh (dom (responses st))]).
Proof.
  intros Hcur Hscope Hnone.
  pose proof (Response_attaches name [ArgFunc (Some (Status n))] st scope rs
                _ _ Hcur Hscope Hnone (executeResponseDSL_Status name n st))
    as Heq.
  split; [exact Heq|]. rewrite Heq. simpl.
  rewrite (appendResponse_scopeResponses scope rs)
    by (destruct scope; exact Hscope).
  destruct (appendResponse_frame scope (fresh (dom (responses st)))
              (set_responses
                 (<[fresh (dom (responses st)) :=
                      attached scope (defaultMediaType st scope)
                        (HTTPResponseExpr.set_Standard false
                           (HTTPResponseExpr.set_Status n
                              (baseExpression st name)))]>
                    (responses st)) st)) as (-> & -> & -> & _).
  simpl. rewrite lookup_total_insert_eq. unfold attached.
  by destruct (needsMediaType _).
Qed.

(** X5. The documentation of [Response] calls [Response(NotFound)]
    equivalent to [Response(NotFound, func() { Status(404) })].  For a name
    that only has a default template, of status [n], the two definitions
    attach the same expression but for the standard flag, set without the
    block and cleared with it; the rest of the two final states is the
    same. *)
Theorem Response_default_template_block (name : string) (n : Z) (st : State)
    (scope : Expression) (rs : list loc) (ar : loc) :
  last (Stack st) = Some scope ->
  scopeResponses st scope = Some rs ->
  findResponse st name rs = None ->
  RootResponses st !! name = None ->
  RootDefaultResponses st !! name = Some ar ->
  HTTPResponseExpr.Status (responses st !!! ar) = n ->
  (Response name [] st).2 =
    set_responses
      (<[fresh (dom (responses st)) :=
           HTTPResponseExpr.set_Standard true
             (responses (Response name [ArgFunc (Some (Status n))] st).2
              !!! fresh (dom (responses st)))]>
         (responses (Response name [ArgFunc (Some (Status n))] st).2))
      (Response name [ArgFunc (Some (Status n))] st).2
  /\ HTTPResponseExpr.Standard
       (responses (Response name [] st).2 !!! fresh (dom (responses st)))
     = true
  /\ HTTPResponseExpr.Standard
       (responses (Response name [ArgFunc (Some (Status n))] st).2
        !!! fresh (dom (responses st))) = false.
Proof.
  intros Hcur Hscope Hnone Huser Hdefault Hstatus.
  pose proof (Response_attaches name [ArgFunc (Some (Status n))] st scope rs
                _ _ Hcur Hscope Hnone (executeResponseDSL_Status name n st))
    as Hblock.
  pose proof (Response_attaches name [] st scope rs _ _ Hcur Hscope Hnone
                (executeResponseDSL_no_block name [] st eq_refl eq_refl))
    as Hplain.
  simpl in Hplain. rewrite Hblock, Hplain. simpl.
  unfold baseExpression. rewrite Huser, Hdefault.
  destruct (responses st !!! ar) as [nm de status mt ty he sd pa] eqn:Har.
  simpl in Hstatus. subst status.
  unfold attached, needsMediaType. simpl.
  destruct scope as [def|def|def|def]; simpl in Hscope; try discriminate;
    unfold appendResponse, set_responses, set_actions, set_resources; simpl;
    rewrite ?lookup_total_insert_eq, ?insert_insert_eq;
    destruct (bool_decide (n = 200%Z) && String.eqb mt ""); simpl;
    by rewrite ?lookup_total_insert_eq.
Qed.

(** X6. A block that calls [Response] aborts the definition it belongs to:
    inside the block the target is the response under construction, not a
    scope, so the inner call reports the incompatible-context error, and the
    outer [Response] attaches nothing.  One error is reported; the scope and
    the stack are as before. *)
Theorem Response_nested_Response (name inner : string)
    (dt : option design.DataType) (innerArgs : list Arg) (st : State)
    (scope : Expression) (rs : list loc) :
  last (Stack st) = Some scope ->
  scopeResponses st scope = Some rs ->
  findResponse st name rs = None ->
  Response name (argsOf dt (Some (Some (Response inner innerArgs)))) st =
    (tt,
     set_Errors (Errors st ++ [IncompatibleDSLError "Response"])
       (set_responses
          (<[fresh (dom (responses st)) := baseExpression st name]>
             (responses st)) st))
  /\ scopeResponses
       (Response name (argsOf dt (Some (Some (Response inner innerArgs)))) st).2
       scope = Some rs
  /\ Stack
       (Response name (argsOf dt (Some (Some (Response inner innerArgs)))) st).2
     = Stack st.
Proof.
  intros Hcur Hscope Hnone.
  assert (Heq : Response name
                  (argsOf dt (Some (Some (Response inner innerArgs)))) st =
                (tt,
                 set_Errors (Errors st ++ [IncompatibleDSLError "Response"])
                   (set_responses
                      (<[fresh (dom (responses st)) := baseExpression st name]>
                         (responses st)) st))).
  { rewrite (Response_in_scope name _ st scope rs) by done.
    unfold executeResponseDSL.
    assert (Hparse :
              (takeDSL (argsOf dt (Some (Some (Response inner innerArgs))))).1
              = Some (Response inner innerArgs)
              /\ stringParams
                   (takeDataType
                      (takeDSL
                         (argsOf dt (Some (Some (Response inner innerArgs))))).2).2
                 = inr []) by (by destruct dt).
    destruct Hparse as [-> ->]. simpl.
    unfold mbind, M_bind at 1. rewrite baseResponse_spec.
    unfold M_bind at 1. by rewrite Execute_Response. }
  rewrite Heq. split; [reflexivity|]. split; [|reflexivity].
  by destruct scope.
Qed.

(** X7. Defining a name twice: after a definition without block of a name
    the scope did not hold, with a base expression that bears the name (as
    the fresh one always does), any further definition of the name in the
    scope reports that the response is defined twice and changes nothing
    else. *)
Theorem Response_twice (name : string) (args args' : list Arg) (st : State)
    (scope : Expression) (rs : list loc) :
  last (Stack st) = Some scope ->
  scopeResponses st scope = Some rs ->
  findResponse st name rs = None ->
  (takeDSL args).1 = None ->
  templateParams args = [] ->
  HTTPResponseExpr.Name (baseExpression st name) = name ->
  Response name args' (Response name args st).2 =
    (tt,
     set_Errors (Errors (Response name args st).2 ++ [DefinedTwice name])
       (Response name args st).2).
Proof.
  intros Hcur Hscope Hnone Hfn Hparams Hname.
  pose proof (Response_attaches name args st scope rs _ _ Hcur Hscope Hnone
                (executeResponseDSL_no_block name args st Hfn Hparams))
    as Heq.
  rewrite Heq. simpl.
  set (r := fresh (dom (responses st))) in *.
  set (x := attached scope (defaultMediaType st scope) _).
  set (st' := appendResponse scope r
                (set_responses (<[r := x]> (responses st)) st)).
  assert (Hcur' : last (Stack st') = Some scope).
  { unfold st'. by destruct (appendResponse_frame scope r
      (set_responses (<[r := x]> (responses st)) st)) as (_ & -> & _). }
  assert (Hscope' : scopeResponses st' scope = Some (rs ++ [r])).
  { apply appendResponse_scopeResponses. by destruct scope. }
  assert (Hx : HTTPResponseExpr.Name (responses st' !!! r) = name).
  { unfold st'. destruct (appendResponse_frame scope r
      (set_responses (<[r := x]> (responses st)) st)) as (-> & _).
    simpl. rewrite lookup_total_insert_eq. unfold x, attached.
    destruct ((takeDataType (takeDSL args).2).1) as [dt|];
      destruct (needsMediaType _); simpl; try exact Hname;
      by destruct dt. }
  destruct (findResponse st' name (rs ++ [r])) as [r'|] eqn:Hfind.
  - by apply (Response_duplicate name args' st' scope (rs ++ [r]) r').
  - exfalso. unfold findResponse in Hfind.
    assert (Hin : In r (rs ++ [r])) by (apply in_or_app; right; by left).
    pose proof (find_none _ _ Hfind r Hin) as Hno. simpl in Hno.
    rewrite Hx, String.eqb_refl in Hno. discriminate.
Qed.

(** X8. Without a block a definition has one of two outcomes.  Either it
    reports exactly one error and changes nothing else; or it reports
    nothing, appends one response, at a location that was free, to the
    responses of the scope, and leaves the stack, the registries and every
    response expression the store already held, the templates among them, as
    they were. *)
Theorem Response_no_block_outcome (name : string) (args : list Arg)
    (st : State) :
  (takeDSL args).1 = None ->
  (exists e, Response name args st = (tt, set_Errors (Errors st ++ [e]) st))
  \/ (exists scope rs,
        last (Stack st) = Some scope
        /\ scopeResponses st scope = Some rs
        /\ scopeResponses (Response name args st).2 scope =
             Some (rs ++ [fresh (dom (responses st))])
        /\ (fresh (dom (responses st)) ∉ dom (responses st))
        /\ (forall l, is_Some (responses st !! l) ->
               responses (Response name args st).2 !! l = responses st !! l)
        /\ Errors (Response name args st).2 = Errors st
        /\ Stack (Response name args st).2 = Stack st
        /\ RootResponses (Response name args st).2 = RootResponses st
        /\ RootDefaultResponses (Response name args st).2 =
             RootDefaultResponses st).
Proof.
  intros Hfn.
  destruct (last (Stack st)) as [scope|] eqn:Hcur;
    [|left; exists (IncompatibleDSLError "Response");
      unfold Response; run; by rewrite Hcur].
  destruct (scopeResponses st scope) as [rs|] eqn:Hscope;
    [|left; exists (IncompatibleDSLError "Response");
      unfold Response; run; rewrite Hcur; by destruct scope].
  destruct (findResponse st name rs) as [r'|] eqn:Hfind;
    [left; exists (DefinedTwice name);
     by apply (Response_duplicate name args st scope rs r')|].
  destruct (templateParams args) as [|p ps] eqn:Hparams.
  - right. exists scope, rs.
    pose proof (Response_attaches name args st scope rs _ _ Hcur Hscope Hfind
                  (executeResponseDSL_no_block name args st Hfn Hparams))
      as Heq.
    rewrite Heq. simpl.
    set (r := fresh (dom (responses st))).
    set (x := attached scope (defaultMediaType st scope) _).
    destruct (appendResponse_frame scope r
                (set_responses (<[r := x]> (responses st)) st))
      as (-> & -> & -> & -> & ->).
    split; [done|]. split; [done|].
    split; [apply appendResponse_scopeResponses; by destruct scope|].
    split; [apply is_fresh|].
    split; [|done].
    intros l Hl. simpl. apply lookup_insert_ne.
    intros <-. apply (is_fresh (dom (responses st))).
    by apply elem_of_dom.
  - left. exists (templateError name (templateParams args)).
    rewrite (Response_in_scope name args st scope rs) by done.
    rewrite executeResponseDSL_template_parameters; [done|].
    by rewrite Hparams.
Qed.

(** X9. On a response target two calls of [Status] leave the state the last
    one alone would: the status is overwritten, nothing accumulates.  A call
    changes the status of the target and nothing else in the store. *)
Theorem Status_overwrites (n m : Z) (st : State) (res : loc) :
  last (Stack st) = Some (ResponseRef res) ->
  Status m (Status n st).2 = Status m st
  /\ (forall l, l <> res ->
        responses (Status n st).2 !! l = responses st !! l)
  /\ responses (Status n st).2 !!! res =
       HTTPResponseExpr.set_Status n (responses st !!! res)
  /\ actions (Status n st).2 = actions st
  /\ resources (Status n st).2 = resources st
  /\ Stack (Status n st).2 = Stack st
  /\ Errors (Status n st).2 = Errors st.
Proof.
  intros Hcur. unfold Status. run. rewrite Hcur. simpl. rewrite Hcur.
  split.
  - unfold set_responses. simpl.
    rewrite lookup_total_insert_eq, insert_insert_eq.
    by destruct (responses st !!! res).
  - split; [intros l Hl; by apply lookup_insert_ne|].
    split; [by rewrite lookup_total_insert_eq|]. done.
Qed.

(** X14. Whatever the block does, if it leaves more errors than there were
    when the definition started, [Response] stops there: the state is the
    one the block left, with the target popped, and the expression under
    construction is neither completed nor appended to the scope. *)
Theorem Response_failing_block (name : string) (fn : DSLFunc) (st st1 : State)
    (scope : Expression) (rs : list loc) :
  last (Stack st) = Some scope ->
  scopeResponses st scope = Some rs ->
  findResponse st name rs = None ->
  (fn (set_Stack (Stack st ++ [ResponseRef (fresh (dom (responses st)))])
         (set_responses
            (<[fresh (dom (responses st)) := baseExpression st name]>
               (responses st)) st))).2 = st1 ->
  length (Errors st) < length (Errors st1) ->
  Response name [ArgFunc (Some fn)] st =
    (tt, set_Stack (removelast (Stack st1)) st1)
  /\ scopeResponses (Response name [ArgFunc (Some fn)] st).2 scope =
       scopeResponses st1 scope.
Proof.
  intros Hcur Hscope Hnone Hfn Herr.
  assert (Heq : Response name [ArgFunc (Some fn)] st =
                (tt, set_Stack (removelast (Stack st1)) st1)).
  { rewrite (Response_in_scope name _ st scope rs) by done.
    unfold executeResponseDSL. simpl.
    unfold mbind, M_bind at 1. rewrite baseResponse_spec.
    unfold M_bind at 1. unfold Execute. simpl.
    destruct (fn _) as [[] st1'] eqn:Hrun. simpl in Hfn. subst st1'.
    simpl. rewrite bool_decide_eq_false_2 by lia. reflexivity. }
  rewrite Heq. split; [reflexivity|]. by destruct scope.
Qed.

End ResponseDSLMore.

(** * Further properties of the publicizer *)

Section PublicizerMore.
Import design codegen spec.
Context `{H : Helpers}.

(** A text that contains a character is not empty. *)
Lemma append_nonempty (s1 s2 : string) :
  0 < String.length s2 -> s1 +:+ s2 <> "".
Proof.
  intros Hlen Heq. apply (f_equal String.length) in Heq.
  rewrite length_append in Heq. simpl in Heq. lia.
Qed.

Lemma Join_nonempty (x : string) (xs : list string) (sep : string) :
  0 < String.length x -> Join (x :: xs) sep <> "".
Proof.
  intros Hlen Heq. apply (f_equal String.length) in Heq.
  unfold Join in Heq. simpl in Heq.
  destruct xs; [|rewrite length_append in Heq]; simpl in Heq; lia.
Qed.

Lemma guarded_length (d : nat) (s n p : string) :
  0 < String.length (guarded d s n p).
Proof. unfold guarded. rewrite !length_append. simpl. lia. Qed.

(** X10. A map whose key or element is an object is published by an
    allocation of the length of the source followed by a loop over its keys
    and values: the key and the value are each published by a call with the
    init flag set, into [pubk<depth>] and [pubv<depth>], and the value is
    stored under the key.  That text is never the direct assignment of the
    primitive case.  With the init flag set, a primitive and a user or media
    type over an object are declared with [:=]; an anonymous object ignores
    the flag and is assigned with [=], so that its temporary is not
    declared. *)
Theorem Publicizer_map_with_object (a k e : AttributeExpr) (s t : string)
    (deref : bool) (d : nat) (i : bool) :
  AsMap (Type_ a) = Some (k, e) ->
  IsObject (Type_ k) || IsObject (Type_ e) = true ->
  Publicizer a s t deref d i =
    Tabs d +:+ t +:+ " " +:+ (if i then ":" else "") +:+ "= make("
    +:+ GoTypeRef (Type_ a) (AllRequired a) d false
    +:+ ", len(" +:+ s +:+ "))" +:+ nl
    +:+ Tabs d +:+ "for " +:+ ("k" +:+ itoa d) +:+ ", "
    +:+ ("v" +:+ itoa d) +:+ " := range " +:+ s +:+ " {" +:+ nl
    +:+ Tabs d
    +:+ Publicizer k ("k" +:+ itoa d) ("pub" +:+ "k" +:+ itoa d) deref
          (Add d 1) true
    +:+ nl
    +:+ Tabs d
    +:+ Publicizer e ("v" +:+ itoa d) ("pub" +:+ "v" +:+ itoa d) deref
          (Add d 1) true
    +:+ nl
    +:+ Tabs d +:+ tab +:+ t +:+ "[" +:+ ("pub" +:+ "k" +:+ itoa d) +:+ "]"
    +:+ " = " +:+ ("pub" +:+ "v" +:+ itoa d) +:+ nl
    +:+ Tabs d +:+ "}"
  /\ (forall p, IsPrimitive (Type_ p) = true ->
        Publicizer a s t deref d i <> Publicizer p s t deref d i)
  /\ (forall c src tgt df d', IsPrimitive (Type_ c) = true ->
        Publicizer c src tgt df d' true =
          Tabs d' +:+ tgt +:+ " := " +:+ (if df then "*" else "") +:+ src)
  /\ (forall c src tgt df d',
        IsObject (Type_ c) = true -> isNamed (Type_ c) = true ->
        Publicizer c src tgt df d' true =
          Tabs d' +:+ tgt +:+ " := " +:+ src +:+ ".Publicize()")
  /\ (forall c o src tgt df d', Type_ c = Some (Object o) ->
        Publicizer c src tgt df d' true =
          Tabs d' +:+ tgt +:+ " = &" +:+ GoTypeDef c d' true false +:+ "{}"
          +:+ nl +:+ RecursivePublicizer c src tgt d').
Proof.
  intros Hm Hobj.
  assert (Ha : Publicizer a s t deref d i =
               hashPublicizeTmpl Publicizer
                 (set_elemType e (set_keyType k (publicizerData a s t deref d i)))).
  { rewrite Publicizer_eq.
    destruct (AsMap_kind _ _ Hm) as (-> & -> & -> & ->).
    by rewrite Hm, Hobj. }
  split; [|split; [|split; [|split]]].
  - rewrite Ha. unfold hashPublicizeTmpl, makeLine, colon. simpl.
    by rewrite !append_assoc.
  - intros p Hp Heq. rewrite (Publicizer_primitive p) in Heq by done.
    rewrite Ha in Heq. apply (f_equal String.length) in Heq.
    unfold hashPublicizeTmpl, makeLine, colon in Heq. simpl in Heq.
    repeat rewrite length_append in Heq. simpl in Heq.
    destruct deref; simpl in Heq; lia.
  - intros c src tgt df d' Hc. by rewrite (Publicizer_primitive c).
  - intros c src tgt df d' Hc Hnamed. rewrite Publicizer_eq, Hc, Hnamed.
    assert (IsPrimitive (Type_ c) = false) as ->; [|reflexivity].
    unfold IsPrimitive, IsObject, AsObject in *.
    destruct (Type_ c) as [ty|]; [|done]. by destruct (underlying ty).
  - intros c o src tgt df d' Hc. rewrite Publicizer_eq, Hc. reflexivity.
Qed.

(** X11. [RecursivePublicizer] returns the empty text exactly when there is
    no field to publish: the type of the attribute does not resolve to an
    object, or the object has no field. *)
Theorem RecursivePublicizer_empty_iff (a : AttributeExpr) (s t : string)
    (d : nat) :
  RecursivePublicizer a s t d = "" <-> default [] (AsObject (Type_ a)) = [].
Proof.
  unfold RecursivePublicizer, RecursivePublicizerWith, AsObject.
  destruct (Type_ a) as [ty|]; [|done].
  destruct (underlying ty) as [k|e|k e|o|n a'|n id a']; try done.
  destruct o as [|[n c] o]; [done|]. simpl. split; [|discriminate].
  intros Heq. exfalso. revert Heq. apply Join_nonempty.
  apply guarded_length.
Qed.

(** X12. Through a user type or a media type the fields are published on
    behalf of the attribute of the named type: the attribute that refers to
    the type, and the fields it lists as required, play no part.  When the
    named type wraps an anonymous object the text is the one
    [RecursivePublicizer] gives for the attribute of the named type. *)
Theorem RecursivePublicizer_named (a a' : AttributeExpr) (ty : DataType)
    (o : list (string * AttributeExpr)) (s t : string) (d : nat) :
  Type_ a = Some ty ->
  (exists n, ty = UserTypeExpr n a') \/ (exists n id, ty = MediaTypeExpr n id a') ->
  AsObject (Type_ a') = Some o ->
  RecursivePublicizer a s t d =
    Join (map (fun '(n, c) => publishField Publicizer a' s t d n c) o) nl
  /\ (Type_ a' = Some (Object o) ->
      RecursivePublicizer a s t d = RecursivePublicizer a' s t d).
Proof.
  intros Ha Hty Ho.
  assert (Hu : underlying ty = Object o).
  { unfold AsObject in Ho. destruct (Type_ a') as [ty'|] eqn:Ha'; [|done].
    destruct Hty as [[n ->]|(n & id & ->)]; simpl; rewrite Ha';
      by destruct (underlying ty'); simplify_eq. }
  assert (Heq : RecursivePublicizer a s t d =
                Join (map (fun '(n, c) => publishField Publicizer a' s t d n c) o) nl).
  { unfold RecursivePublicizer, RecursivePublicizerWith. rewrite Ha, Hu.
    by destruct Hty as [[n ->]|(n & id & ->)]. }
  split; [exact Heq|].
  intros Ha'. rewrite Heq.
  unfold RecursivePublicizer, RecursivePublicizerWith. by rewrite Ha'.
Qed.

(** X13. [Publicizer] returns the empty text only for a type none of the
    four predicates holds of; in every other case the text is not empty and
    opens with the indentation of its depth. *)
Theorem Publicizer_empty_iff (a : AttributeExpr) (s t : string) (deref : bool)
    (d : nat) (i : bool) :
  (Publicizer a s t deref d i = "" <-> dispatch (Type_ a) = None)
  /\ (dispatch (Type_ a) <> None ->
      String.prefix (Tabs d) (Publicizer a s t deref d i) = true).
Proof.
  rewrite Publicizer_eq. unfold dispatch. simpl.
  destruct (IsPrimitive (Type_ a)).
  { split; [split; [|discriminate]|intros _; apply prefix_append].
    intros Heq. exfalso. revert Heq. unfold simplePublicizeTmpl.
    apply append_nonempty. rewrite !length_append. simpl. lia. }
  destruct (IsObject (Type_ a)).
  { split; [split; [|discriminate]|].
    - intros Heq. exfalso. revert Heq.
      destruct (isNamed (Type_ a));
        unfold recursivePublicizeTmpl, objectPublicizeTmpl;
        apply append_nonempty; rewrite !length_append; simpl; lia.
    - intros _. destruct (isNamed (Type_ a)); apply prefix_append. }
  destruct (IsArray (Type_ a)) eqn:Harr.
  { unfold IsArray in Harr. destruct (AsArray (Type_ a)) as [ar|]; [|done].
    split; [split; [|discriminate]|].
    - intros Heq. exfalso. revert Heq.
      destruct (IsObject (Type_ ar));
        unfold arrayPublicizeTmpl, simplePublicizeTmpl;
        apply append_nonempty; rewrite !length_append; simpl; lia.
    - intros _. destruct (IsObject (Type_ ar));
        unfold arrayPublicizeTmpl, makeLine; simpl;
        rewrite ?append_assoc; apply prefix_append. }
  destruct (IsMap (Type_ a)) eqn:Hmap.
  { unfold IsMap in Hmap. destruct (AsMap (Type_ a)) as [[k e]|]; [|done].
    split; [split; [|discriminate]|].
    - intros Heq. exfalso. revert Heq.
      destruct (IsObject (Type_ k) || IsObject (Type_ e));
        unfold hashPublicizeTmpl, simplePublicizeTmpl;
        apply append_nonempty; rewrite !length_append; simpl; lia.
    - intros _. destruct (IsObject (Type_ k) || IsObject (Type_ e));
        unfold hashPublicizeTmpl, makeLine; simpl;
        rewrite ?append_assoc; apply prefix_append. }
  split; [done|]. by intros [].
Qed.

End PublicizerMore.

Section MoreExamples.
Import design codegen spec eval dsl dslspec dslforms samples.

(** X2, on [Response(OK, BottleMedia, func() { Status(201) })]. *)
Lemma executeResponseDSL_body_type_witness :
  HTTPResponseExpr.Type_
    (responses
       (executeResponseDSL "OK"
          [ArgDataType BottleMedia; ArgFunc (Some (Status 201))] inAction).2
     !!! 2) = Some BottleMedia
  /\ HTTPResponseExpr.Standard
       (responses
          (executeResponseDSL "OK"
             [ArgDataType BottleMedia; ArgFunc (Some (Status 201))] inAction).2
        !!! 2) = false
  /\ HTTPResponseExpr.MediaType
       (responses
          (executeResponseDSL "OK"
             [ArgDataType BottleMedia; ArgFunc (Some (Status 201))] inAction).2
        !!! 2) = "application/vnd.bottle".
Proof.
  assert (Hexec :
            executeResponseDSL "OK"
              [ArgDataType BottleMedia; ArgFunc (Some (Status 201))] inAction =
            (Some 2,
             (executeResponseDSL "OK"
                [ArgDataType BottleMedia; ArgFunc (Some (Status 201))]
                inAction).2)) by reflexivity.
  destruct (executeResponseDSL_body_type "OK"
              [ArgDataType BottleMedia; ArgFunc (Some (Status 201))]
              BottleMedia inAction _ 2 eq_refl Hexec)
    as (_ & Hty & Hstd & Hmt).
  split; [exact Hty|]. split; [exact Hstd|].
  exact (Hmt _ _ _ eq_refl).
Defined.

(** X3, on [Response(OK, BottleMedia)] in the action: the status is 200 and
    the media type is that of [BottleMedia], not that of the resource. *)
Lemma Response_body_type_witness :
  HTTPResponseExpr.MediaType
    (responses (Response "OK" [ArgDataType BottleMedia] inAction).2 !!! 2)
  = "application/vnd.bottle"
  /\ HTTPResponseExpr.Type_
       (responses (Response "OK" [ArgDataType BottleMedia] inAction).2 !!! 2)
     = Some BottleMedia
  /\ Errors (Response "OK" [ArgDataType BottleMedia] inAction).2 = [].
Proof.
  destruct (Response_body_type "OK" BottleMedia inAction (ActionRef 0) [1]
              eq_refl eq_refl eq_refl) as (_ & Hmt & Hty & Herr).
  split; [|split; [exact Hty | exact Herr]].
  apply (Hmt "BottleMedia" "application/vnd.bottle"
           (mkAttributeExpr (Some (Object [("name", stringAtt)])) ["name"]));
    [reflexivity | discriminate].
Defined.

(** X4, on [Response(OK, func() { Status(201) })] in the action. *)
Lemma Response_Status_block_witness :
  HTTPResponseExpr.Status
    (responses (Response "OK" [ArgFunc (Some (Status 201))] inAction).2 !!! 2)
  = 201%Z
  /\ HTTPResponseExpr.Standard
       (responses (Response "OK" [ArgFunc (Some (Status 201))] inAction).2
        !!! 2) = false
  /\ Errors (Response "OK" [ArgFunc (Some (Status 201))] inAction).2 = []
  /\ Stack (Response "OK" [ArgFunc (Some (Status 201))] inAction).2 =
       [ResourceRef 0; ActionRef 0]
  /\ scopeResponses
       (Response "OK" [ArgFunc (Some (Status 201))] inAction).2 (ActionRef 0)
     = Some [1; 2].
Proof.
  exact (proj2 (Response_Status_block "OK" 201 inAction (ActionRef 0) [1]
                  eq_refl eq_refl eq_refl)).
Defined.

(** X5, on the default template [OK], of status 200, in the action. *)
Lemma Response_default_template_block_witness :
  HTTPResponseExpr.Standard
    (responses (Response "OK" [] inAction).2 !!! 2) = true
  /\ HTTPResponseExpr.Standard
       (responses (Response "OK" [ArgFunc (Some (Status 200))] inAction).2
        !!! 2) = false.
Proof.
  exact (proj2 (Response_default_template_block "OK" 200 inAction
                  (ActionRef 0) [1] 0
                  eq_refl eq_refl eq_refl eq_refl eq_refl eq_refl)).
Defined.

(** X6, on [Response(OK, func() { Response(Created) })] in the action. *)
Lemma Response_nested_Response_witness :
  Errors
    (Response "OK" [ArgFunc (Some (Response "Created" []))] inAction).2
  = [IncompatibleDSLError "Response"]
  /\ scopeResponses
       (Response "OK" [ArgFunc (Some (Response "Created" []))] inAction).2
       (ActionRef 0) = Some [1]
  /\ Stack
       (Response "OK" [ArgFunc (Some (Response "Created" []))] inAction).2
     = [ResourceRef 0; ActionRef 0].
Proof.
  destruct (Response_nested_Response "OK" "Created" None [] inAction
              (ActionRef 0) [1] eq_refl eq_refl eq_refl)
    as (Heq & Hscope & Hstack).
  split; [|split; [exact Hscope | exact Hstack]].
  change (argsOf None (Some (Some (Response "Created" []))))
    with [ArgFunc (Some (Response "Created" []))] in Heq.
  by rewrite Heq.
Defined.

(** X7, on [Response(Created)] followed by [Response(Created,
    BottleMedia)] in the action: no template bears the name. *)
Lemma Response_twice_witness :
  Response "Created" [ArgDataType BottleMedia]
    (Response "Created" [] inAction).2 =
    (tt,
     set_Errors [DefinedTwice "Created"] (Response "Created" [] inAction).2).
Proof.
  exact (Response_twice "Created" [] [ArgDataType BottleMedia] inAction
           (ActionRef 0) [1] eq_refl eq_refl eq_refl eq_refl eq_refl eq_refl).
Defined.

(** X8, on [Response(OK)] in the action and outside any scope. *)
Lemma Response_no_block_outcome_witness :
  ((exists e,
      Response "OK" [] inAction = (tt, set_Errors (Errors inAction ++ [e]) inAction))
   \/ (exists scope rs,
         last (Stack inAction) = Some scope
         /\ scopeResponses inAction scope = Some rs
         /\ scopeResponses (Response "OK" [] inAction).2 scope =
              Some (rs ++ [fresh (dom (responses inAction))])
         /\ (fresh (dom (responses inAction)) ∉ dom (responses inAction))
         /\ (forall l, is_Some (responses inAction !! l) ->
                responses (Response "OK" [] inAction).2 !! l =
                responses inAction !! l)
         /\ Errors (Response "OK" [] inAction).2 = Errors inAction
         /\ Stack (Response "OK" [] inAction).2 = Stack inAction
         /\ RootResponses (Response "OK" [] inAction).2 =
              RootResponses inAction
         /\ RootDefaultResponses (Response "OK" [] inAction).2 =
              RootDefaultResponses inAction))
  /\ responses (Response "OK" [] inAction).2 !! 0 = Some okTemplate.
Proof.
  split; [exact (Response_no_block_outcome "OK" [] inAction eq_refl)|].
  reflexivity.
Defined.

(** X9, on the response [NotFound] while it is the target. *)
Lemma Status_overwrites_witness :
  Status 410 (Status 500 inResponse).2 = Status 410 inResponse
  /\ HTTPResponseExpr.Status (responses (Status 500 inResponse).2 !!! 1)
     = 500%Z.
Proof.
  destruct (Status_overwrites 500 410 inResponse 1 eq_refl)
    as (Heq & _ & Hres & _).
  split; [exact Heq|]. exact (f_equal HTTPResponseExpr.Status Hres).
Defined.

(** X14, on a block that reports an error of its own. *)
Lemma Response_failing_block_witness :
  Response "OK" [ArgFunc (Some (ReportError (DefinedTwice "Header")))] inAction
  = (tt,
     set_Errors [DefinedTwice "Header"]
       (set_responses
          (<[2 := HTTPResponseExpr.set_Standard true okTemplate]>
             (responses inAction)) inAction))
  /\ scopeResponses
       (Response "OK" [ArgFunc (Some (ReportError (DefinedTwice "Header")))]
          inAction).2 (ActionRef 0) = Some [1].
Proof.
  destruct (Response_failing_block "OK"
              (ReportError (DefinedTwice "Header")) inAction
              (set_Errors [DefinedTwice "Header"]
                 (set_Stack [ResourceRef 0; ActionRef 0; ResponseRef 2]
                    (set_responses
                       (<[2 := HTTPResponseExpr.set_Standard true okTemplate]>
                          (responses inAction)) inAction)))
              (ActionRef 0) [1] eq_refl eq_refl eq_refl eq_refl
              (Nat.lt_0_succ 0)) as [Heq Hscope].
  split; [exact Heq | exact Hscope].
Defined.

(** X10, on a map from strings to the user type [Owner], at depth 1, and
    on the value of a map from strings to the anonymous object of the
    samples, which is assigned and not declared. *)
Lemma Publicizer_map_with_object_witness :
  Publicizer (H := sampleHelpers)
    (mkAttributeExpr (Some (Map stringAtt ownerAtt)) [])
    "source" "target" false 1 false
  = tab +:+ "target = make(T, len(source))" +:+ nl
    +:+ tab +:+ "for k1, v1 := range source {" +:+ nl
    +:+ tab +:+ tab +:+ tab +:+ "pubk1 := k1" +:+ nl
    +:+ tab +:+ tab +:+ tab +:+ "pubv1 := v1.Publicize()" +:+ nl
    +:+ tab +:+ tab +:+ "target[pubk1] = pubv1" +:+ nl
    +:+ tab +:+ "}"
  /\ Publicizer (H := sampleHelpers) accountAtt "v0" "pubv0" false 1 true
     = tab +:+ "pubv0 = &struct{}" +:+ nl
       +:+ RecursivePublicizer (H := sampleHelpers) accountAtt "v0" "pubv0" 1.
Proof.
  destruct (Publicizer_map_with_object (H := sampleHelpers)
              (mkAttributeExpr (Some (Map stringAtt ownerAtt)) [])
              stringAtt ownerAtt "source" "target" false 1 false
              eq_refl eq_refl) as (Htext & _ & _ & _ & Hanon).
  split; [rewrite Htext; reflexivity|].
  exact (Hanon accountAtt _ "v0" "pubv0" false 1 eq_refl).
Defined.

(** X12, on the user type [Owner]: its field [name] is required by the
    attribute of the type, and is dereferenced, though the attribute that
    refers to the type requires nothing. *)
Lemma RecursivePublicizer_named_witness :
  Required ownerAtt = []
  /\ RecursivePublicizer (H := sampleHelpers) ownerAtt "source" "target" 0
     = "if source.name != nil {" +:+ nl
       +:+ tab +:+ "target.name = *source.name" +:+ nl
       +:+ "}".
Proof.
  split; [reflexivity|].
  rewrite (proj1 (RecursivePublicizer_named (H := sampleHelpers) ownerAtt
                    (mkAttributeExpr (Some (Object [("name", stringAtt)]))
                                     ["name"])
                    ownerType [("name", stringAtt)] "source" "target" 0
                    eq_refl (or_introl (ex_intro _ "Owner" eq_refl))
                    eq_refl)).
  reflexivity.
Defined.

End MoreExamples.
